(** * The Chalice GraphQL view of strawberry

    A shallow embedding of [strawberry/chalice/views.py]: the class
    [GraphQLView] and its method [execute_request], which turns one HTTP
    request of the Chalice framework into one call of the GraphQL engine and
    one HTTP response.

    Python values are modelled as follows.
    - [str] is [string]; [needle in hay] on strings is [str_in].
    - [dict] and the mappings of Chalice are [gmap string _]; a [set] is a
      [gset].
    - An exception is a value of [exn]; a Python computation is a function
      from the world to a result and a world ([M]), the world holding the
      trace of the calls made to the collaborators and the store of the
      mutable [TemporalResponse] objects.
    - [try: ... except E: ...] is [try_except], which handles [E] only and
      lets every other exception through. *)

From Stdlib Require Import ZArith Ascii String.
From stdpp Require Import base gmap strings list.

#[local] Open Scope Z_scope.
#[local] Open Scope string_scope.

(** ** Strings *)

Module Str.

(** [needle in hay] for two Python strings: [needle] occurs in [hay] as a
    contiguous run of characters. *)
Fixpoint str_in (needle hay : string) : bool :=
  String.prefix needle hay
  || match hay with
     | EmptyString => false
     | String _ rest => str_in needle rest
     end.

Definition lower_ascii (c : ascii) : ascii :=
  let n := Ascii.N_of_ascii c in
  if ((65 <=? n) && (n <=? 90))%N then Ascii.ascii_of_N (n + 32) else c.

(** [s.lower()] on the ASCII range. *)
Fixpoint lower (s : string) : string :=
  match s with
  | EmptyString => EmptyString
  | String c rest => String (lower_ascii c) (lower rest)
  end.

End Str.
Export Str.

(** ** JSON documents and Python objects built from them *)

#[local] Unset Elimination Schemes.
Inductive json : Type :=
| JNull
| JBool (b : bool)
| JNum (n : Z)
| JStr (s : string)
| JList (l : list json)
| JDict (d : gmap string json).
#[local] Set Elimination Schemes.

(** [isinstance(data, dict)] *)
Definition isinstance_dict (data : json) : bool :=
  match data with
  | JDict _ => true
  | _ => false
  end.

(** [d.get(key)]: [None] (here [JNull]) when the key is absent. *)
Definition dict_get (d : gmap string json) (key : string) : json :=
  default JNull (d !! key).

(** ** Operation kinds *)

(** [strawberry.types.graphql.OperationType] *)
Inductive OperationType : Type :=
| QUERY
| MUTATION
| SUBSCRIPTION.

#[global] Instance OperationType_eq_dec : EqDecision OperationType.
Proof. solve_decision. Defined.

Definition OperationType_to_nat (k : OperationType) : nat :=
  match k with
  | QUERY => 0
  | MUTATION => 1
  | SUBSCRIPTION => 2
  end.

Definition OperationType_of_nat (n : nat) : option OperationType :=
  match n with
  | 0%nat => Some QUERY
  | 1%nat => Some MUTATION
  | 2%nat => Some SUBSCRIPTION
  | _ => None
  end.

#[global] Instance OperationType_countable : Countable OperationType.
Proof.
  apply (inj_countable OperationType_to_nat OperationType_of_nat).
  intros []; reflexivity.
Defined.

(** ** Exceptions and results *)

Inductive exn : Type :=
| BadRequestError                (* chalice.app.BadRequestError *)
| JSONDecodeError                (* json.JSONDecodeError *)
| MissingQueryError              (* strawberry.exceptions.MissingQueryError *)
| InvalidOperationTypeError (operation_type : OperationType)
| ValueError (msg : string)
| AttributeError (attr : string).

Inductive result (A : Type) : Type :=
| Ok (a : A)
| Raise (e : exn).
Arguments Ok {A} a.
Arguments Raise {A} e.

(** ** The objects of Chalice *)

(** [chalice.app.Request], as far as the view reads it.  [headers] is the
    case-insensitive mapping of Chalice, which stores its keys in lower
    case; [query_params] is [None] or the mapping of the query string;
    [body_json] is what decoding the raw body gives, [None] when the body
    is not JSON. *)
Record Request : Type := mkRequest {
  method : string;
  headers : gmap string string;
  query_params : option (gmap string string);
  body_json : option json;
}.

(** [CaseInsensitiveMapping(raw)]: the keys are lowered when stored. *)
Definition CaseInsensitiveMapping (raw : list (string * string)) : gmap string string :=
  list_to_map (prod_map lower id <$> raw).

(** [headers.get(key, dflt)]: the key is lowered before the lookup. *)
Definition headers_get (h : gmap string string) (key dflt : string) : string :=
  default dflt (h !! lower key).

(** The truth value of [request.query_params]: [None] and the empty
    mapping are false. *)
Definition truthy_params (p : option (gmap string string)) : bool :=
  match p with
  | None => false
  | Some m => negb (bool_decide (m = ∅))
  end.

Inductive Body : Type :=
| BodyText (s : string)
| BodyJson (j : json).

(** [chalice.app.Response] *)
Record Response : Type := mkResponse {
  body : Body;
  status_code : Z;
  resp_headers : option (gmap string string);
}.

(** [Response(body=..., status_code=..., headers=...)] *)
Definition Response_new (b : Body) (code : Z) (h : option (gmap string string)) : Response :=
  {| body := b; status_code := code; resp_headers := h |}.

(** ** The objects of strawberry the view works with *)

(** Modelled from the spec: [strawberry.http.temporal_response] is missing;
    the placeholder carries a status code and headers, and the status code
    is 200 until something sets it. *)
Record TemporalResponse : Type := mkTemporalResponse {
  tr_status_code : Z;
  tr_headers : gmap string string;
}.

Definition TemporalResponse_default : TemporalResponse :=
  {| tr_status_code := 200; tr_headers := ∅ |}.

(** Modelled from the spec: [GraphQLRequestData] of [strawberry.http] is
    missing; a parsed operation is the query text, the variables and the
    operation name, the last two optional ([JNull] when absent). *)
Record GraphQLRequestData : Type := mkRequestData {
  query : json;
  variables : json;
  operation_name : json;
}.

(** [strawberry.types.ExecutionResult]: data, errors, extensions. *)
Record ExecutionResult : Type := mkExecutionResult {
  data : json;
  errors : list json;
  extensions : json;
}.

(** A location of the store of [TemporalResponse] objects. *)
Definition loc : Type := nat.

(** The values of the context mapping handed to the engine: the request, and
    a reference to the mutable response placeholder. *)
Inductive ctx_value : Type :=
| CtxRequest (r : Request)
| CtxResponse (l : loc).

(** ** The world: calls made to the collaborators, and the store *)

Inductive event : Type :=
| EvJsonBody                                 (* request.json_body was read *)
| EvParseQueryParams (params : gmap string string)
| EvRenderGraphiql
| EvExecuteSync (request_data : GraphQLRequestData)
                (context : gmap string ctx_value)
                (allowed : gset OperationType).

Record World : Type := mkWorld {
  trace : list event;
  store : gmap loc TemporalResponse;
}.

Definition empty_world : World := {| trace := []; store := ∅ |}.

Definition is_engine_call (e : event) : bool :=
  match e with
  | EvExecuteSync _ _ _ => true
  | _ => false
  end.

(** ** Computations *)

Definition M (A : Type) : Type := World → result A * World.

#[global] Instance M_ret : MRet M := λ A a w, (Ok a, w).

#[global] Instance M_bind : MBind M := λ A B f m w,
  match m w with
  | (Ok a, w') => f a w'
  | (Raise e, w') => (Raise e, w')
  end.

Definition raise {A} (e : exn) : M A := λ w, (Raise e, w).

Definition log (e : event) : M unit :=
  λ w, (Ok (), {| trace := trace w ++ [e]; store := store w |}).

(** [try: body except E: handler], [handles] telling which exceptions are
    instances of [E]; every other exception goes on. *)
Definition try_except {A} (body : M A) (handles : exn → bool) (handler : exn → M A) : M A :=
  λ w, match body w with
       | (Raise e, w') => if handles e then handler e w' else (Raise e, w')
       | other => other
       end.

Definition is_BadRequestError (e : exn) : bool :=
  match e with BadRequestError => true | _ => false end.
Definition is_JSONDecodeError (e : exn) : bool :=
  match e with JSONDecodeError => true | _ => false end.
Definition is_MissingQueryError (e : exn) : bool :=
  match e with MissingQueryError => true | _ => false end.
Definition is_InvalidOperationTypeError (e : exn) : bool :=
  match e with InvalidOperationTypeError _ => true | _ => false end.

(** [TemporalResponse()]: a fresh object in the store. *)
Definition TemporalResponse_new : M loc :=
  λ w, let l := fresh (dom (store w)) in
       (Ok l, {| trace := trace w; store := <[l := TemporalResponse_default]> (store w) |}).

(** [obj.status_code] for a value of the context. *)
Definition get_status_code (v : ctx_value) : M Z :=
  λ w, match v with
       | CtxResponse l =>
           match store w !! l with
           | Some tr => (Ok (tr_status_code tr), w)
           | None => (Raise (AttributeError "status_code"), w)
           end
       | CtxRequest _ => (Raise (AttributeError "status_code"), w)
       end.

(** [request.json_body]: the decoded body, [BadRequestError] when the body
    does not decode. *)
Definition json_body (request : Request) : M json :=
  _ ← log EvJsonBody;
  match body_json request with
  | Some j => mret j
  | None => raise BadRequestError
  end.

(** ** What the view takes from outside the repository *)

(** [json.loads] of the Python library ([None] for [JSONDecodeError]), the
    text of the GraphiQL page, and the serialisation of an execution
    result. *)
Class Runtime : Type := mkRuntime {
  json_loads : string → option json;
  render_graphiql_page : string;
  process_result : ExecutionResult → json;
}.

(** ** strawberry.types.graphql, strawberry.http, strawberry.schema *)

Definition all_operation_types : gset OperationType :=
  {[ QUERY; MUTATION; SUBSCRIPTION ]}.

(** Modelled from the spec: [OperationType.from_http] is missing; POST
    permits all kinds and GET permits query only.  No other method has a set
    of permitted kinds. *)
Definition from_http (method : string) : M (gset OperationType) :=
  if String.eqb method "GET" then mret {[ QUERY ]}
  else if String.eqb method "POST" then mret all_operation_types
  else raise (ValueError ("Unsupported HTTP method: " +:+ method)).

Definition operation_type_plural (k : OperationType) : string :=
  match k with
  | QUERY => "queries"
  | MUTATION => "mutations"
  | SUBSCRIPTION => "subscriptions"
  end.

(** Modelled from the spec: [InvalidOperationTypeError.as_http_error_reason]
    is missing; the message explains that the kind is not permitted and
    names the method. *)
Definition as_http_error_reason (k : OperationType) (method : string) : string :=
  operation_type_plural k +:+ " are not allowed when using " +:+ method.

(** Modelled from the spec: [strawberry.http.parse_request_data] is missing;
    query, variables and operation name are taken from the parsed mapping,
    and a mapping without a query raises [MissingQueryError]. *)
Definition parse_request_data (d : gmap string json) : M GraphQLRequestData :=
  match d !! "query" with
  | None => raise MissingQueryError
  | Some q =>
      mret {| query := q;
              variables := dict_get d "variables";
              operation_name := dict_get d "operationName" |}
  end.

(** Modelled from the spec: the engine behind [BaseSchema.execute_sync] is
    missing.  A schema says which kind of operation a request asks for
    ([None] when its document selects none), and how the operation runs:
    the outcome, and what the resolvers do to the response placeholder they
    reach through the context. *)
Record BaseSchema : Type := mkSchema {
  operation_type_of : GraphQLRequestData → option OperationType;
  resolve : GraphQLRequestData → gmap string ctx_value → option json →
            ExecutionResult * (TemporalResponse → TemporalResponse);
}.

(** The resolvers write to the placeholder that the context refers to. *)
Definition update_placeholder (context : gmap string ctx_value)
    (f : TemporalResponse → TemporalResponse) : M unit :=
  λ w, match context !! "response" with
       | Some (CtxResponse l) =>
           (Ok (), {| trace := trace w; store := alter f l (store w) |})
       | _ => (Ok (), w)
       end.

Definition run_operation (schema : BaseSchema) (rd : GraphQLRequestData)
    (context : gmap string ctx_value) (root_value : option json) : M ExecutionResult :=
  let '(outcome, effect) := resolve schema rd context root_value in
  _ ← update_placeholder context effect;
  mret outcome.

(** Modelled from the spec: [BaseSchema.execute_sync] is missing; an
    operation whose kind is outside the permitted set is refused with
    [InvalidOperationTypeError], every other request is executed and gives
    an outcome. *)
Definition execute_sync (schema : BaseSchema) (rd : GraphQLRequestData)
    (context : gmap string ctx_value) (root_value : option json)
    (allowed_operation_types : gset OperationType) : M ExecutionResult :=
  _ ← log (EvExecuteSync rd context allowed_operation_types);
  match operation_type_of schema rd with
  | Some k =>
      if bool_decide (k ∈ allowed_operation_types)
      then run_operation schema rd context root_value
      else raise (InvalidOperationTypeError k)
  | None => run_operation schema rd context root_value
  end.

Section WithRuntime.
Context `{Runtime}.

(** Modelled from the spec: [strawberry.http.parse_query_params] is
    missing; the parameters of the query string become a mapping of the
    shape of a JSON body, the variables being JSON inside a parameter. *)
Definition parse_query_params (params : gmap string string) : M (gmap string json) :=
  _ ← log (EvParseQueryParams params);
  match params !! "variables" with
  | None => mret (JStr <$> params)
  | Some text =>
      match json_loads text with
      | Some v => mret (<["variables" := v]> (JStr <$> params))
      | None => raise JSONDecodeError
      end
  end.

End WithRuntime.

(** ** The view *)

(** [class GraphQLView]: the attributes set by [__init__]. *)
Record GraphQLView : Type := mkView {
  graphiql : bool;
  allow_queries_via_get : bool;
  _schema : BaseSchema;
}.

(** [GraphQLView.__init__]: the deprecated keyword [render_graphiql], when
    given, takes the place of [graphiql]. *)
Definition GraphQLView_init (schema : BaseSchema) (graphiql allow_queries_via_get : bool)
    (kwargs : gmap string bool) : GraphQLView :=
  {| graphiql := match kwargs !! "render_graphiql" with
                 | Some flag => flag
                 | None => graphiql
                 end;
     allow_queries_via_get := allow_queries_via_get;
     _schema := schema |}.

Definition get_root_value (self : GraphQLView) (request : Request) : option json := None.

(** How a block of [execute_request] ends: with a [return], or by falling
    through to the statements after it with the value it bound. *)
Inductive flow (A : Type) : Type :=
| Returned (response : Response)
| Next (a : A).
Arguments Returned {A} response.
Arguments Next {A} a.

(** The headers the client may ask for to get the GraphiQL page. *)
Definition supported_headers : gset string := {[ "text/html"; "*/*" ]}.

Definition should_render_graphiql (graphiql : bool) (request : Request) : bool :=
  if negb graphiql then false
  else existsb
         (λ supported_header,
            str_in supported_header (headers_get (headers request) "accept" ""))
         (elements supported_headers).

Definition error_response (message error_code : string) (http_status_code : Z)
    (headers : option (gmap string string)) : Response :=
  let body := {[ "Code" := JStr error_code; "Message" := JStr message ]} in
  Response_new (BodyJson (JDict body)) http_status_code headers.

Definition get_context (self : GraphQLView) (request : Request) (response : loc)
    : gmap string ctx_value :=
  {[ "request" := CtxRequest request; "response" := CtxResponse response ]}.

Section View.
Context `{Runtime}.

Definition render_graphiql : M string :=
  _ ← log EvRenderGraphiql;
  mret render_graphiql_page.

(** [execute_request], from [parse_request_data(data)] on (lines 155 to
    196): [data] is the mapping found in the body or in the query
    string. *)
Definition execute_data (self : GraphQLView) (request : Request)
    (data : gmap string json) : M Response :=
  let method := method request in
  parsed ← try_except
    (request_data ← parse_request_data data;
     mret (Next request_data))
    is_MissingQueryError
    (λ _, mret (Returned (error_response
       "No GraphQL query found in the request" "BadRequestError" 400 None)));
  match parsed with
  | Returned response => mret response
  | Next request_data =>
      allowed_operation_types ← from_http method;
      let allowed_operation_types :=
        if negb (allow_queries_via_get self) && String.eqb method "GET"
        then allowed_operation_types ∖ {[ QUERY ]}
        else allowed_operation_types in
      response ← TemporalResponse_new;
      let context := get_context self request response in
      executed ← try_except
        (result ← execute_sync (_schema self) request_data context
                    (get_root_value self request) allowed_operation_types;
         mret (Next result))
        is_InvalidOperationTypeError
        (λ e, match e with
              | InvalidOperationTypeError k =>
                  mret (Returned (error_response
                    (as_http_error_reason k method) "BadRequestError" 400 None))
              | _ => raise e
              end);
      match executed with
      | Returned response => mret response
      | Next result =>
          let http_result := process_result result in
          status_code ← match context !! "response" with
                        | Some placeholder => get_status_code placeholder
                        | None => mret 200
                        end;
          mret (Response_new (BodyJson http_result) status_code None)
      end
  end.

Definition execute_request (self : GraphQLView) (request : Request) : M Response :=
  let method := method request in
  if negb (bool_decide (method ∈ ({[ "POST"; "GET" ]} : gset string))) then
    mret (error_response
      "Unsupported method, must be of request type POST or GET"
      "MethodNotAllowedError" 405 None)
  else
    let content_type := headers_get (headers request) "content-type" "" in
    found ←
      (if str_in "application/json" content_type then
         try_except
           (data ← json_body request;
            match data with
            | JDict d => mret (Next d)
            | _ => mret (Returned (error_response
                "Provide a valid graphql query in the body of your request"
                "BadRequestError" 400 None))
            end)
           is_BadRequestError
           (λ _, mret (Returned (error_response
              "Unable to parse request body as JSON" "BadRequestError" 400 None)))
       else if String.eqb method "GET" && truthy_params (query_params request) then
         try_except
           (data ← parse_query_params (default ∅ (query_params request));
            mret (Next data))
           is_JSONDecodeError
           (λ _, mret (Returned (error_response
              "Unable to parse request body as JSON" "BadRequestError" 400 None)))
       else if String.eqb method "GET"
               && should_render_graphiql (graphiql self) request then
         page ← render_graphiql;
         mret (Returned (Response_new (BodyText page) 200
                           (Some {[ "content-type" := "text/html" ]})))
       else
         mret (Returned (error_response "Not found" "NotFoundError" 404 None)));
    match found with
    | Returned response => mret response
    | Next data => execute_data self request data
    end.

End View.

(** ** What the claims speak of *)

(** A structured error: a body with exactly the fields [Code] and
    [Message], both strings. *)
Definition structured_error (r : Response) (code : Z) : Prop :=
  ∃ error_code message : string,
    body r = BodyJson (JDict {[ "Code" := JStr error_code; "Message" := JStr message ]})
    ∧ status_code r = code.

Definition json_content_type (request : Request) : bool :=
  str_in "application/json" (headers_get (headers request) "content-type" "").

(** The events logged between two worlds. *)
Definition calls_since (w w' : World) : list event :=
  drop (length (trace w)) (trace w').

Definition log_event (e : event) (w : World) : World :=
  {| trace := trace w ++ [e]; store := store w |}.

(** The set of permitted kinds in the words of the specification: POST
    permits all kinds, GET permits query only, and no kind when queries via
    GET are not allowed. *)
Definition spec_permitted_kinds (allow_queries_via_get : bool) (method : string)
    : gset OperationType :=
  if String.eqb method "POST" then all_operation_types
  else if allow_queries_via_get then {[ QUERY ]}
  else ∅.

(** The error responses of [execute_request]. *)
Definition method_not_allowed : Response :=
  error_response "Unsupported method, must be of request type POST or GET"
    "MethodNotAllowedError" 405 None.
Definition body_not_a_mapping : Response :=
  error_response "Provide a valid graphql query in the body of your request"
    "BadRequestError" 400 None.
Definition body_not_json : Response :=
  error_response "Unable to parse request body as JSON" "BadRequestError" 400 None.
Definition not_found : Response :=
  error_response "Not found" "NotFoundError" 404 None.
Definition no_query_found : Response :=
  error_response "No GraphQL query found in the request" "BadRequestError" 400 None.
Definition operation_not_allowed (k : OperationType) (method : string) : Response :=
  error_response (as_http_error_reason k method) "BadRequestError" 400 None.

Section Claims.
Context `{Runtime}.

(** The response that carries the GraphiQL page. *)
Definition explorer_response : Response :=
  Response_new (BodyText render_graphiql_page) 200
    (Some {[ "content-type" := "text/html" ]}).

(** The request reaches [parse_request_data] with the mapping [d], in the
    world [w1]: [d] is the JSON body, or the parsed query string. *)
Inductive data_found (request : Request) (w : World) : gmap string json → World → Prop :=
| found_in_body d :
    method request = "POST" ∨ method request = "GET" →
    json_content_type request = true →
    body_json request = Some (JDict d) →
    data_found request w d (log_event EvJsonBody w)
| found_in_params params d w1 :
    method request = "GET" →
    json_content_type request = false →
    query_params request = Some params →
    params ≠ ∅ →
    parse_query_params params w = (Ok d, w1) →
    data_found request w d w1.

(** The world after a successful call of the engine made in [w]. *)
Definition world_after_engine (w : World) (rd : GraphQLRequestData)
    (context : gmap string ctx_value) (allowed : gset OperationType)
    (placeholder : TemporalResponse) : World :=
  {| trace := trace w ++ [EvExecuteSync rd context allowed];
     store := <[fresh (dom (store w)) := placeholder]> (store w) |}.

(** What [execute_request] answers, and the world it leaves, when the
    engine called in [w] executes the operation [rd]: the serialised
    outcome, with the status code read from the placeholder after the
    resolvers ran. *)
Definition engine_success (self : GraphQLView) (request : Request) (w : World)
    (rd : GraphQLRequestData) (allowed : gset OperationType) : result Response * World :=
  let context := get_context self request (fresh (dom (store w))) in
  let '(outcome, effect) := resolve (_schema self) rd context None in
  let placeholder := effect TemporalResponse_default in
  (Ok (Response_new (BodyJson (process_result outcome)) (tr_status_code placeholder) None),
   world_after_engine w rd context allowed placeholder).

(** The three kinds of answer of [execute_request]: the GraphiQL page, a
    structured error with one of the three error codes, or what a
    successful execution of the engine gives. *)
Inductive answer (self : GraphQLView) (request : Request) (w : World)
    (response : Response) (w' : World) : Prop :=
| answer_explorer :
    response = explorer_response →
    w' = log_event EvRenderGraphiql w →
    answer self request w response w'
| answer_error code :
    code = 400 ∨ code = 404 ∨ code = 405 →
    structured_error response code →
    answer self request w response w'
| answer_engine d w1 rd allowed :
    data_found request w d w1 →
    engine_success self request w1 rd allowed = (Ok response, w') →
    answer self request w response w'.

(** The failures [execute_request] recognises: a method other than GET
    and POST, a body or a parameter that is not JSON, a mapping without a
    query, an operation of a kind that is not permitted. *)
Inductive failure (self : GraphQLView) (request : Request) (w : World) : Prop :=
| bad_method :
    method request ≠ "GET" → method request ≠ "POST" →
    failure self request w
| bad_json_body :
    json_content_type request = true →
    body_json request = None →
    failure self request w
| bad_json_params params text :
    method request = "GET" →
    json_content_type request = false →
    query_params request = Some params →
    params !! "variables" = Some text →
    json_loads text = None →
    failure self request w
| missing_query d w1 :
    data_found request w d w1 →
    d !! "query" = None →
    failure self request w
| disallowed_operation d w1 rd k :
    data_found request w d w1 →
    parse_request_data d w1 = (Ok rd, w1) →
    operation_type_of (_schema self) rd = Some k →
    k ∉ spec_permitted_kinds (allow_queries_via_get self) (method request) →
    failure self request w.

(** The last sentence of C3 as it is written: a response made without a
    call of the engine is the GraphiQL page. *)
Definition explorer_is_only_bypass : Prop :=
  ∀ self request w response w',
    execute_request self request w = (Ok response, w') →
    existsb is_engine_call (calls_since w w') = false →
    response = explorer_response.

(** C4 as it is written, for every request: under a JSON content type, a
    body that is not JSON or not a mapping is answered with 400. *)
Definition json_body_rejected_with_400 : Prop :=
  ∀ self request w,
    json_content_type request = true →
    (body_json request = None
     ∨ ∃ j, body_json request = Some j ∧ isinstance_dict j = false) →
    ∃ response w',
      execute_request self request w = (Ok response, w')
      ∧ structured_error response 400.

End Claims.

(** ** A runtime and a schema to run the view on *)

Module Demo.

(** A decoder that knows the two documents used below. *)
Definition loads (text : string) : option json :=
  if String.eqb text "{}" then Some (JDict ∅)
  else if String.eqb text "null" then Some JNull
  else None.

Definition serialise (r : ExecutionResult) : json :=
  JDict {[ "data" := data r ]}.

#[export] Instance runtime : Runtime :=
  {| json_loads := loads;
     render_graphiql_page := "<html>GraphiQL</html>";
     process_result := serialise |}.

(** The kind is read off the first word of the query text. *)
Definition kind_of (rd : GraphQLRequestData) : option OperationType :=
  match query rd with
  | JStr text =>
      if String.prefix "mutation" text then Some MUTATION
      else if String.prefix "subscription" text then Some SUBSCRIPTION
      else if String.prefix "query" text || String.prefix "{" text then Some QUERY
      else None
  | _ => None
  end.

(** Mutations answer 201 through the placeholder, the rest leaves it. *)
Definition run (rd : GraphQLRequestData) (context : gmap string ctx_value)
    (root : option json) : ExecutionResult * (TemporalResponse → TemporalResponse) :=
  ({| data := JStr "ok"; errors := []; extensions := JNull |},
   match kind_of rd with
   | Some MUTATION => λ tr, {| tr_status_code := 201; tr_headers := tr_headers tr |}
   | _ => λ tr, tr
   end).

Definition schema : BaseSchema :=
  {| operation_type_of := kind_of; resolve := run |}.

Definition view : GraphQLView := GraphQLView_init schema true true ∅.
Definition strict_view : GraphQLView := GraphQLView_init schema true false ∅.

Definition request (method : string) (raw_headers : list (string * string))
    (params : option (gmap string string)) (body : option json) : Request :=
  {| method := method;
     headers := CaseInsensitiveMapping raw_headers;
     query_params := params;
     body_json := body |}.

Definition json_headers : list (string * string) :=
  [("Content-Type", "application/json")].

Definition post_query : Request :=
  request "POST" json_headers None (Some (JDict {[ "query" := JStr "{ hello }" ]})).
Definition post_mutation : Request :=
  request "POST" json_headers None (Some (JDict {[ "query" := JStr "mutation { hello }" ]})).
Definition get_mutation : Request :=
  request "GET" [] (Some {[ "query" := "mutation { hello }" ]}) None.
Definition get_query : Request :=
  request "GET" [] (Some {[ "query" := "{ hello }" ]}) None.
Definition get_bad_variables : Request :=
  request "GET" [] (Some {[ "query" := "{ hello }"; "variables" := "{oops" ]}) None.
Definition get_no_query : Request :=
  request "GET" [] (Some {[ "variables" := "{}" ]}) None.
Definition get_html : Request :=
  request "GET" [("Accept", "text/html,application/xhtml+xml")] None None.
Definition get_json_accept : Request :=
  request "GET" [("accept", "application/json")] None None.
Definition put_json : Request :=
  request "PUT" json_headers None None.
Definition post_malformed : Request :=
  request "POST" json_headers None None.
Definition post_list : Request :=
  request "POST" json_headers None (Some (JList [])).
Definition post_text : Request :=
  request "POST" [("content-type", "text/plain")] None (Some (JDict {[ "query" := JStr "{ hello }" ]})).

End Demo.

(** ** The table of outcomes of [execute_request] *)

(** The parsed operation [parse_request_data] makes of a mapping that has
    the query [q]. *)
Definition request_data_of (d : gmap string json) (q : json) : GraphQLRequestData :=
  {| query := q;
     variables := dict_get d "variables";
     operation_name := dict_get d "operationName" |}.

(** The request with [query_params] set to [None]. *)
Definition without_query_params (request : Request) : Request :=
  {| method := method request;
     headers := headers request;
     query_params := None;
     body_json := body_json request |}.

Definition is_body_read (e : event) : bool :=
  match e with
  | EvJsonBody => true
  | _ => false
  end.

Definition is_params_parse (e : event) : bool :=
  match e with
  | EvParseQueryParams _ => true
  | _ => false
  end.

Definition is_render (e : event) : bool :=
  match e with
  | EvRenderGraphiql => true
  | _ => false
  end.

(** The events of one request: nothing, one reading of the body, one
    parsing of the query string, one rendering of the page, or a reading or
    a parsing followed by one call of the engine. *)
Definition one_pass (evs : list event) : Prop :=
  evs = []
  ∨ evs = [EvJsonBody]
  ∨ (∃ params, evs = [EvParseQueryParams params])
  ∨ evs = [EvRenderGraphiql]
  ∨ (∃ e rd context allowed,
       evs = [e; EvExecuteSync rd context allowed]
       ∧ (e = EvJsonBody ∨ ∃ params, e = EvParseQueryParams params)).

Section Outcomes.
Context `{Runtime}.

(** One constructor for each way through [execute_request]: the response it
    returns and the world it leaves. *)
Inductive outcome (self : GraphQLView) (request : Request) (w : World)
    : Response → World → Prop :=
| out_method :
    method request ≠ "GET" → method request ≠ "POST" →
    outcome self request w method_not_allowed w
| out_body_not_json :
    method request = "POST" ∨ method request = "GET" →
    json_content_type request = true →
    body_json request = None →
    outcome self request w body_not_json (log_event EvJsonBody w)
| out_body_not_a_mapping j :
    method request = "POST" ∨ method request = "GET" →
    json_content_type request = true →
    body_json request = Some j →
    isinstance_dict j = false →
    outcome self request w body_not_a_mapping (log_event EvJsonBody w)
| out_params_not_json params text :
    method request = "GET" →
    json_content_type request = false →
    query_params request = Some params →
    params !! "variables" = Some text →
    json_loads text = None →
    outcome self request w body_not_json (log_event (EvParseQueryParams params) w)
| out_explorer :
    method request = "GET" →
    json_content_type request = false →
    truthy_params (query_params request) = false →
    should_render_graphiql (graphiql self) request = true →
    outcome self request w explorer_response (log_event EvRenderGraphiql w)
| out_not_found :
    method request = "POST"
    ∨ (method request = "GET"
       ∧ truthy_params (query_params request) = false
       ∧ should_render_graphiql (graphiql self) request = false) →
    json_content_type request = false →
    outcome self request w not_found w
| out_no_query d w1 :
    data_found request w d w1 →
    d !! "query" = None →
    outcome self request w no_query_found w1
| out_refused d w1 q k :
    data_found request w d w1 →
    d !! "query" = Some q →
    operation_type_of (_schema self) (request_data_of d q) = Some k →
    k ∉ spec_permitted_kinds (allow_queries_via_get self) (method request) →
    outcome self request w (operation_not_allowed k (method request))
      (world_after_engine w1 (request_data_of d q)
         (get_context self request (fresh (dom (store w1))))
         (spec_permitted_kinds (allow_queries_via_get self) (method request))
         TemporalResponse_default)
| out_executed d w1 q response w' :
    data_found request w d w1 →
    d !! "query" = Some q →
    (∀ k, operation_type_of (_schema self) (request_data_of d q) = Some k →
          k ∈ spec_permitted_kinds (allow_queries_via_get self) (method request)) →
    engine_success self request w1 (request_data_of d q)
      (spec_permitted_kinds (allow_queries_via_get self) (method request))
    = (Ok response, w') →
    outcome self request w response w'.

End Outcomes.

(** More requests and views to run. *)
Module Cases.

(** A view with the GraphiQL page switched off by the deprecated keyword. *)
Definition quiet_view : GraphQLView :=
  GraphQLView_init Demo.schema true true {[ "render_graphiql" := false ]}.

Definition get_empty_params : Request :=
  Demo.request "GET" [("Accept", "text/html")] (Some ∅) None.

Definition get_html_with_query : Request :=
  Demo.request "GET" [("Accept", "text/html")] (Some {[ "query" := "{ hello }" ]}) None.

Definition post_charset : Request :=
  Demo.request "POST" [("Content-Type", "application/json; charset=utf-8")] None
    (Some (JDict {[ "query" := JStr "{ hello }" ]})).

(** A schema whose resolvers set a header and the status on the
    placeholder. *)
Definition run_with_header (rd : GraphQLRequestData) (context : gmap string ctx_value)
    (root : option json) : ExecutionResult * (TemporalResponse → TemporalResponse) :=
  ({| data := JStr "ok"; errors := []; extensions := JNull |},
   λ tr, {| tr_status_code := 202;
            tr_headers := <["x-request-id" := "42"]> (tr_headers tr) |}).

Definition header_schema : BaseSchema :=
  {| operation_type_of := Demo.kind_of; resolve := run_with_header |}.

Definition header_view : GraphQLView := GraphQLView_init header_schema true true ∅.

End Cases.

(** ** The view over any engine *)

(** What the view calls as [self._schema.execute_sync]: the schema is an
    object handed to [__init__], and the call may return a result or raise
    anything. *)
Definition Engine : Type :=
  GraphQLRequestData → gmap string ctx_value → option json → gset OperationType →
  M ExecutionResult.

(** An engine that raises [e] whatever it is asked. *)
Definition raising_engine (e : exn) : Engine := λ _ _ _ _, raise e.

Section AnyEngine.
Context `{Runtime}.
Variable engine : Engine.

(** [execute_data] with [engine] in the place of the call of
    [self._schema.execute_sync] (lines 155 to 196). *)
Definition execute_data_with (self : GraphQLView) (request : Request)
    (data : gmap string json) : M Response :=
  let method := method request in
  parsed ← try_except
    (request_data ← parse_request_data data;
     mret (Next request_data))
    is_MissingQueryError
    (λ _, mret (Returned (error_response
       "No GraphQL query found in the request" "BadRequestError" 400 None)));
  match parsed with
  | Returned response => mret response
  | Next request_data =>
      allowed_operation_types ← from_http method;
      let allowed_operation_types :=
        if negb (allow_queries_via_get self) && String.eqb method "GET"
        then allowed_operation_types ∖ {[ QUERY ]}
        else allowed_operation_types in
      response ← TemporalResponse_new;
      let context := get_context self request response in
      executed ← try_except
        (result ← engine request_data context
                    (get_root_value self request) allowed_operation_types;
         mret (Next result))
        is_InvalidOperationTypeError
        (λ e, match e with
              | InvalidOperationTypeError k =>
                  mret (Returned (error_response
                    (as_http_error_reason k method) "BadRequestError" 400 None))
              | _ => raise e
              end);
      match executed with
      | Returned response => mret response
      | Next result =>
          let http_result := process_result result in
          status_code ← match context !! "response" with
                        | Some placeholder => get_status_code placeholder
                        | None => mret 200
                        end;
          mret (Response_new (BodyJson http_result) status_code None)
      end
  end.

(** [execute_request] with [engine] in the place of the call of
    [self._schema.execute_sync]. *)
Definition execute_request_with (self : GraphQLView) (request : Request) : M Response :=
  let method := method request in
  if negb (bool_decide (method ∈ ({[ "POST"; "GET" ]} : gset string))) then
    mret (error_response
      "Unsupported method, must be of request type POST or GET"
      "MethodNotAllowedError" 405 None)
  else
    let content_type := headers_get (headers request) "content-type" "" in
    found ←
      (if str_in "application/json" content_type then
         try_except
           (data ← json_body request;
            match data with
            | JDict d => mret (Next d)
            | _ => mret (Returned (error_response
                "Provide a valid graphql query in the body of your request"
                "BadRequestError" 400 None))
            end)
           is_BadRequestError
           (λ _, mret (Returned (error_response
              "Unable to parse request body as JSON" "BadRequestError" 400 None)))
       else if String.eqb method "GET" && truthy_params (query_params request) then
         try_except
           (data ← parse_query_params (default ∅ (query_params request));
            mret (Next data))
           is_JSONDecodeError
           (λ _, mret (Returned (error_response
              "Unable to parse request body as JSON" "BadRequestError" 400 None)))
       else if String.eqb method "GET"
               && should_render_graphiql (graphiql self) request then
         page ← render_graphiql;
         mret (Returned (Response_new (BodyText page) 200
                           (Some {[ "content-type" := "text/html" ]})))
       else
         mret (Returned (error_response "Not found" "NotFoundError" 404 None)));
    match found with
    | Returned response => mret response
    | Next data => execute_data_with self request data
    end.

End AnyEngine.

(** ** The claims as they are written *)

(** The text of the query of a mapping, when it has one. *)
Definition query_text (d : gmap string json) : option string :=
  match d !! "query" with
  | Some (JStr text) => Some text
  | _ => None
  end.

(** The variables of a query string: [None] (here [JNull]) without the
    parameter, the decoded JSON with it. *)
Definition params_variables `{Runtime} (params : gmap string string) : json :=
  default JNull (params !! "variables" ≫= json_loads).

(** The parsed operation a query string with the query [text] stands for. *)
Definition params_request_data `{Runtime} (params : gmap string string) (text : string)
    : GraphQLRequestData :=
  {| query := JStr text;
     variables := params_variables params;
     operation_name := default JNull (JStr <$> params !! "operationName") |}.

Definition success_status (code : Z) : Prop := 200 ≤ code < 300.

Section AsWritten.
Context `{Runtime}.

(** The first sentence of C2 as it is written: a response whose status is
    not a success is a structured error with status 400, 404 or 405. *)
Definition non_success_is_structured_error : Prop :=
  ∀ self request w response w',
    execute_request self request w = (Ok response, w') →
    ¬ success_status (status_code response) →
    ∃ code, (code = 400 ∨ code = 404 ∨ code = 405) ∧ structured_error response code.

(** C7 as it is written: a mapping that holds no text as its query is
    answered with 400 and not handed to the engine. *)
Definition no_query_text_rejected : Prop :=
  ∀ self request w d w1,
    data_found request w d w1 →
    query_text d = None →
    ∃ response w',
      execute_request self request w = (Ok response, w')
      ∧ structured_error response 400
      ∧ existsb is_engine_call (calls_since w w') = false.

End AsWritten.

(** Requests and schemas for these. *)
Module Faults.

(** A schema whose resolvers answer 403 through the placeholder. *)
Definition run_forbidden (rd : GraphQLRequestData) (context : gmap string ctx_value)
    (root : option json) : ExecutionResult * (TemporalResponse → TemporalResponse) :=
  ({| data := JNull; errors := [JStr "forbidden"]; extensions := JNull |},
   λ tr, {| tr_status_code := 403; tr_headers := tr_headers tr |}).

Definition forbidding_schema : BaseSchema :=
  {| operation_type_of := Demo.kind_of; resolve := run_forbidden |}.

Definition forbidding_view : GraphQLView :=
  GraphQLView_init forbidding_schema true true ∅.

Definition post_null_query : Request :=
  Demo.request "POST" Demo.json_headers None (Some (JDict {[ "query" := JNull ]})).

Definition get_full_query : Request :=
  Demo.request "GET" []
    (Some {[ "query" := "query Q { hello }";
             "variables" := "{}";
             "operationName" := "Q" ]})
    None.

Definition post_full_query : Request :=
  Demo.request "POST" Demo.json_headers None
    (Some (JDict {[ "query" := JStr "query Q { hello }";
                    "variables" := JDict ∅;
                    "operationName" := JStr "Q" ]})).

End Faults.

(** * Properties *)

(** ** Strings and sets *)

Lemma method_in_set (m : string) :
  bool_decide (m ∈ ({[ "POST"; "GET" ]} : gset string)) = true ↔ m = "POST" ∨ m = "GET".
Proof.
  rewrite bool_decide_eq_true. set_solver.
Qed.

Lemma method_not_in_set (m : string) :
  m ≠ "GET" → m ≠ "POST" →
  bool_decide (m ∈ ({[ "POST"; "GET" ]} : gset string)) = false.
Proof.
  intros Hget Hpost. apply bool_decide_eq_false.
  rewrite elem_of_union, !elem_of_singleton. tauto.
Qed.

Lemma should_render_graphiql_eq (flag : bool) (request : Request) :
  should_render_graphiql flag request
  = flag && (str_in "text/html" (headers_get (headers request) "accept" "")
             || str_in "*/*" (headers_get (headers request) "accept" "")).
Proof.
  unfold should_render_graphiql.
  assert (elements supported_headers = ["*/*"; "text/html"]) as -> by reflexivity.
  destruct flag; simpl; [|reflexivity].
  rewrite orb_false_r. apply orb_comm.
Qed.

Lemma from_http_permitted (allow : bool) (m : string) (w : World) :
  m = "POST" ∨ m = "GET" →
  ∃ kinds : gset OperationType,
    from_http m w = (Ok kinds, w)
    ∧ (if negb allow && String.eqb m "GET" then kinds ∖ {[ QUERY ]} else kinds)
      = spec_permitted_kinds allow m.
Proof.
  intros [-> | ->].
  - exists all_operation_types. split; [reflexivity|].
    rewrite andb_false_r. reflexivity.
  - exists {[ QUERY ]}. split; [reflexivity|].
    destruct allow; simpl; [reflexivity|].
    unfold spec_permitted_kinds; simpl. set_solver.
Qed.

(** ** The branches of [execute_request] *)

(** Unfolds the operations of [M] in the goal. *)
Ltac unfold_M :=
  unfold mbind, M_bind, mret, M_ret, try_except, raise, log in *.

Section Branches.
Context `{Runtime}.
Implicit Types (self : GraphQLView) (request : Request) (w : World).

Lemma execute_request_bad_method self request w :
  method request ≠ "GET" → method request ≠ "POST" →
  execute_request self request w = (Ok method_not_allowed, w).
Proof.
  intros Hget Hpost. unfold execute_request.
  rewrite method_not_in_set by assumption. reflexivity.
Qed.

Lemma execute_request_body_not_json self request w :
  method request = "POST" ∨ method request = "GET" →
  json_content_type request = true →
  body_json request = None →
  execute_request self request w = (Ok body_not_json, log_event EvJsonBody w).
Proof.
  intros Hm Hct Hbody. unfold execute_request.
  apply method_in_set in Hm. rewrite Hm. simpl.
  unfold json_content_type in Hct. rewrite Hct.
  unfold json_body. rewrite Hbody. reflexivity.
Qed.

Lemma execute_request_body_not_a_mapping self request w (j : json) :
  method request = "POST" ∨ method request = "GET" →
  json_content_type request = true →
  body_json request = Some j →
  isinstance_dict j = false →
  execute_request self request w = (Ok body_not_a_mapping, log_event EvJsonBody w).
Proof.
  intros Hm Hct Hbody Hj. unfold execute_request.
  apply method_in_set in Hm. rewrite Hm. simpl.
  unfold json_content_type in Hct. rewrite Hct.
  unfold json_body. rewrite Hbody.
  destruct j; try discriminate; reflexivity.
Qed.

Lemma execute_request_body_mapping self request w (d : gmap string json) :
  method request = "POST" ∨ method request = "GET" →
  json_content_type request = true →
  body_json request = Some (JDict d) →
  execute_request self request w
  = execute_data self request d (log_event EvJsonBody w).
Proof.
  intros Hm Hct Hbody. unfold execute_request.
  apply method_in_set in Hm. rewrite Hm. simpl.
  unfold json_content_type in Hct. rewrite Hct.
  unfold json_body. rewrite Hbody. reflexivity.
Qed.

Lemma truthy_params_some (params : gmap string string) :
  params ≠ ∅ → truthy_params (Some params) = true.
Proof.
  intros Hne. simpl. rewrite bool_decide_eq_false_2 by assumption. reflexivity.
Qed.

Lemma execute_request_params self request w (params : gmap string string) :
  method request = "GET" →
  json_content_type request = false →
  query_params request = Some params →
  params ≠ ∅ →
  execute_request self request w
  = match parse_query_params params w with
    | (Ok d, w1) => execute_data self request d w1
    | (Raise JSONDecodeError, w1) => (Ok body_not_json, w1)
    | (Raise e, w1) => (Raise e, w1)
    end.
Proof.
  intros Hm Hct Hparams Hne. unfold execute_request.
  rewrite (proj2 (method_in_set _)) by (right; assumption). simpl.
  unfold json_content_type in Hct. rewrite Hct, Hm, Hparams.
  rewrite truthy_params_some by assumption. simpl.
  unfold_M.
  destruct (parse_query_params params w) as [[d | e] w1]; [reflexivity|].
  destruct e; reflexivity.
Qed.

Lemma execute_request_explorer self request w :
  method request = "GET" →
  json_content_type request = false →
  truthy_params (query_params request) = false →
  should_render_graphiql (graphiql self) request = true →
  execute_request self request w
  = (Ok explorer_response, log_event EvRenderGraphiql w).
Proof.
  intros Hm Hct Hparams Hrender. unfold execute_request.
  rewrite (proj2 (method_in_set _)) by (right; assumption). simpl.
  unfold json_content_type in Hct. rewrite Hct, Hm, Hparams, Hrender.
  reflexivity.
Qed.

Lemma execute_request_not_found_get self request w :
  method request = "GET" →
  json_content_type request = false →
  truthy_params (query_params request) = false →
  should_render_graphiql (graphiql self) request = false →
  execute_request self request w = (Ok not_found, w).
Proof.
  intros Hm Hct Hparams Hrender. unfold execute_request.
  rewrite (proj2 (method_in_set _)) by (right; assumption). simpl.
  unfold json_content_type in Hct. rewrite Hct, Hm, Hparams, Hrender.
  reflexivity.
Qed.

Lemma execute_request_not_found_post self request w :
  method request = "POST" →
  json_content_type request = false →
  execute_request self request w = (Ok not_found, w).
Proof.
  intros Hm Hct. unfold execute_request.
  rewrite (proj2 (method_in_set _)) by (left; assumption). simpl.
  unfold json_content_type in Hct. rewrite Hct, Hm.
  reflexivity.
Qed.

Lemma execute_request_data_found self request w d w1 :
  data_found request w d w1 →
  execute_request self request w = execute_data self request d w1.
Proof.
  intros [d' Hm Hct Hbody | params d' w1' Hm Hct Hparams Hne Hparse].
  - apply execute_request_body_mapping; assumption.
  - rewrite (execute_request_params self request w params) by assumption.
    rewrite Hparse. reflexivity.
Qed.

End Branches.

(** ** From the parsed mapping to the response *)

Section Execution.
Context `{Runtime}.
Implicit Types (self : GraphQLView) (request : Request) (w : World).

Lemma execute_data_no_query self request w (d : gmap string json) :
  d !! "query" = None →
  execute_data self request d w = (Ok no_query_found, w).
Proof.
  intros Hq. unfold execute_data, parse_request_data. unfold_M.
  rewrite Hq. reflexivity.
Qed.

Lemma context_response self request (l : loc) :
  get_context self request l !! "response" = Some (CtxResponse l).
Proof.
  unfold get_context. rewrite lookup_insert_ne by discriminate.
  apply lookup_singleton_eq.
Qed.

Lemma run_operation_eq self request w rd (allowed : gset OperationType)
    (outcome : ExecutionResult) (effect : TemporalResponse → TemporalResponse) :
  resolve (_schema self) rd (get_context self request (fresh (dom (store w)))) None
  = (outcome, effect) →
  run_operation (_schema self) rd (get_context self request (fresh (dom (store w)))) None
    {| trace := trace w ++ [EvExecuteSync rd
                  (get_context self request (fresh (dom (store w)))) allowed];
       store := <[fresh (dom (store w)) := TemporalResponse_default]> (store w) |}
  = (Ok outcome,
     world_after_engine w rd (get_context self request (fresh (dom (store w))))
       allowed (effect TemporalResponse_default)).
Proof.
  intros Hres.
  unfold run_operation. rewrite Hres. unfold update_placeholder. unfold_M.
  rewrite context_response. simpl.
  unfold world_after_engine. rewrite alter_insert_eq. reflexivity.
Qed.

Lemma execute_data_query self request w (d : gmap string json) (q : json) :
  d !! "query" = Some q →
  method request = "POST" ∨ method request = "GET" →
  let rd := {| query := q;
               variables := dict_get d "variables";
               operation_name := dict_get d "operationName" |} in
  let allowed := spec_permitted_kinds (allow_queries_via_get self) (method request) in
  let context := get_context self request (fresh (dom (store w))) in
  execute_data self request d w
  = match operation_type_of (_schema self) rd with
    | Some k =>
        if bool_decide (k ∈ allowed)
        then engine_success self request w rd allowed
        else (Ok (operation_not_allowed k (method request)),
              world_after_engine w rd context allowed TemporalResponse_default)
    | None => engine_success self request w rd allowed
    end.
Proof.
  intros Hq Hm rd allowed context. subst context.
  unfold execute_data, parse_request_data. unfold_M. rewrite Hq.
  destruct (from_http_permitted (allow_queries_via_get self) (method request) w Hm)
    as (kinds & Hfrom & Hkinds).
  rewrite Hfrom. unfold TemporalResponse_new. cbv zeta.
  rewrite Hkinds. fold rd allowed.
  rewrite context_response.
  unfold execute_sync. unfold_M. cbn [trace store].
  unfold engine_success, get_root_value.
  destruct (resolve (_schema self) rd _ None) as [outcome effect] eqn:Hres.
  pose proof (run_operation_eq self request w rd allowed outcome effect Hres) as Hrun.
  destruct (operation_type_of (_schema self) rd) as [k|];
    [destruct (bool_decide (k ∈ allowed)); [|reflexivity]|];
    rewrite Hrun; unfold get_status_code, world_after_engine; cbn [trace store];
    rewrite lookup_insert_eq; reflexivity.
Qed.

End Execution.

(** ** Every request is answered *)

Section Answers.
Context `{Runtime}.
Implicit Types (self : GraphQLView) (request : Request) (w : World).

Lemma error_response_structured (message error_code : string) (code : Z) :
  structured_error (error_response message error_code code None) code.
Proof.
  exists error_code, message. split; reflexivity.
Qed.

Lemma parse_query_params_cases (params : gmap string string) w :
  parse_query_params params w
  = match params !! "variables" with
    | None => (Ok (JStr <$> params), log_event (EvParseQueryParams params) w)
    | Some text =>
        match json_loads text with
        | Some v => (Ok (<["variables" := v]> (JStr <$> params)),
                     log_event (EvParseQueryParams params) w)
        | None => (Raise JSONDecodeError, log_event (EvParseQueryParams params) w)
        end
    end.
Proof.
  unfold parse_query_params. unfold_M. simpl.
  destruct (params !! "variables") as [text|]; [|reflexivity].
  destruct (json_loads text); reflexivity.
Qed.

Lemma data_found_method request w d w1 :
  data_found request w d w1 →
  method request = "POST" ∨ method request = "GET".
Proof.
  intros [d' Hm _ _ | params d' w1' Hm _ _ _ _]; [assumption | right; assumption].
Qed.

Lemma data_found_world request w d w1 :
  data_found request w d w1 →
  ∃ e, is_engine_call e = false ∧ w1 = log_event e w.
Proof.
  intros [d' _ _ _ | params d' w1' _ _ _ _ Hparse].
  - exists EvJsonBody. split; reflexivity.
  - exists (EvParseQueryParams params). split; [reflexivity|].
    rewrite parse_query_params_cases in Hparse.
    destruct (params !! "variables") as [text|]; [destruct (json_loads text)|];
      congruence.
Qed.

Lemma engine_success_ok self request w rd (allowed : gset OperationType) :
  ∃ response,
    engine_success self request w rd allowed
    = (Ok response,
       world_after_engine w rd (get_context self request (fresh (dom (store w))))
         allowed
         ((resolve (_schema self) rd
             (get_context self request (fresh (dom (store w)))) None).2
            TemporalResponse_default)).
Proof.
  unfold engine_success.
  destruct (resolve (_schema self) rd _ None) as [outcome effect].
  eexists. reflexivity.
Qed.

Lemma calls_since_app w w' (evs : list event) :
  trace w' = (trace w ++ evs)%list → calls_since w w' = evs.
Proof.
  intros Htrace. unfold calls_since. rewrite Htrace. apply drop_app_length.
Qed.

(** From the mapping on, the request is answered: with an error, or by
    the engine. *)
Lemma execute_data_answer self request w d w1 :
  data_found request w d w1 →
  ∃ response w',
    execute_data self request d w1 = (Ok response, w')
    ∧ answer self request w response w'.
Proof.
  intros Hfound. pose proof (data_found_method _ _ _ _ Hfound) as Hm.
  destruct (d !! "query") as [q|] eqn:Hq.
  - rewrite (execute_data_query self request w1 d q Hq Hm). cbv zeta.
    set (rd := {| query := q; variables := _; operation_name := _ |}).
    set (allowed := spec_permitted_kinds _ _).
    destruct (engine_success_ok self request w1 rd allowed) as [response Hok].
    destruct (operation_type_of (_schema self) rd) as [k|];
      [destruct (bool_decide (k ∈ allowed))|].
    + eexists _, _. split; [exact Hok|].
      eapply answer_engine; [exact Hfound | exact Hok].
    + eexists _, _. split; [reflexivity|].
      apply (answer_error _ _ _ _ _ 400); [tauto|].
      apply error_response_structured.
    + eexists _, _. split; [exact Hok|].
      eapply answer_engine; [exact Hfound | exact Hok].
  - rewrite (execute_data_no_query self request w1 d Hq).
    eexists _, _. split; [reflexivity|].
    apply (answer_error _ _ _ _ _ 400); [tauto|].
    apply error_response_structured.
Qed.

Lemma not_a_mapping (j : json) :
  (∃ d, j = JDict d) ∨ isinstance_dict j = false.
Proof.
  destruct j; try (right; reflexivity). left. eexists. reflexivity.
Qed.

(** [execute_request] raises nothing, and its answer is of one of the
    three kinds. *)
Lemma execute_request_answer self request w :
  ∃ response w',
    execute_request self request w = (Ok response, w')
    ∧ answer self request w response w'.
Proof.
  destruct (decide (method request = "GET")) as [Hget | Hget];
    [|destruct (decide (method request = "POST")) as [Hpost | Hpost]].
  3: { rewrite execute_request_bad_method by assumption.
       eexists _, _. split; [reflexivity|].
       apply (answer_error _ _ _ _ _ 405); [tauto|].
       apply error_response_structured. }
  all: assert (Hm : method request = "POST" ∨ method request = "GET") by tauto.
  all: destruct (json_content_type request) eqn:Hct.
  1, 3: destruct (body_json request) as [j|] eqn:Hbody;
    [destruct (not_a_mapping j) as [[d ->] | Hj]|].
  1, 4: rewrite (execute_request_body_mapping self request w d) by assumption;
    apply execute_data_answer; constructor; assumption.
  1, 3: rewrite (execute_request_body_not_a_mapping self request w j) by assumption;
    eexists _, _; (split; [reflexivity|]);
    apply (answer_error _ _ _ _ _ 400); [tauto|];
    apply error_response_structured.
  1, 2: rewrite execute_request_body_not_json by assumption;
    eexists _, _; (split; [reflexivity|]);
    apply (answer_error _ _ _ _ _ 400); [tauto|];
    apply error_response_structured.
  2: { rewrite execute_request_not_found_post by assumption.
       eexists _, _. split; [reflexivity|].
       apply (answer_error _ _ _ _ _ 404); [tauto|].
       apply error_response_structured. }
  destruct (truthy_params (query_params request)) eqn:Htruthy.
  - destruct (query_params request) as [params|] eqn:Hparams; [|discriminate].
    assert (Hne : params ≠ ∅).
    { intros ->. simpl in Htruthy. rewrite bool_decide_eq_true_2 in Htruthy by reflexivity.
      discriminate. }
    rewrite (execute_request_params self request w params) by assumption.
    destruct (parse_query_params params w) as [[d | e] w1] eqn:Hparse.
    + apply execute_data_answer.
      apply (found_in_params request w params d w1); assumption.
    + rewrite parse_query_params_cases in Hparse.
      destruct (params !! "variables") as [text|]; [destruct (json_loads text)|];
        try discriminate.
      injection Hparse as <- <-.
      eexists _, _. split; [reflexivity|].
      apply (answer_error _ _ _ _ _ 400); [tauto|].
      apply error_response_structured.
  - destruct (should_render_graphiql (graphiql self) request) eqn:Hrender.
    + rewrite execute_request_explorer by assumption.
      eexists _, _. split; [reflexivity|].
      apply answer_explorer; reflexivity.
    + rewrite execute_request_not_found_get by assumption.
      eexists _, _. split; [reflexivity|].
      apply (answer_error _ _ _ _ _ 404); [tauto|].
      apply error_response_structured.
Qed.

End Answers.

(** ** The claims of the specification *)

Section Specification.
Context `{Runtime}.
Implicit Types (self : GraphQLView) (request : Request) (w : World).

(** C5: a request whose method is neither GET nor POST is answered with
    the structured error 405, and the world is left as it was: the body
    was not read and the engine was not called. *)
Theorem unsupported_method_405 self request w :
  method request ≠ "GET" → method request ≠ "POST" →
  execute_request self request w = (Ok method_not_allowed, w)
  ∧ structured_error method_not_allowed 405
  ∧ calls_since w w = [].
Proof.
  intros Hget Hpost. split; [|split].
  - apply execute_request_bad_method; assumption.
  - apply error_response_structured.
  - apply calls_since_app. symmetry. apply app_nil_r.
Qed.

(** C9: a POST request whose content type does not contain
    "application/json" is answered with the structured error 404,
    whatever its body and its Accept header are; nothing is read and the
    engine is not called. *)
Theorem post_without_json_404 self request w :
  method request = "POST" →
  json_content_type request = false →
  execute_request self request w = (Ok not_found, w)
  ∧ structured_error not_found 404.
Proof.
  intros Hm Hct. split.
  - apply execute_request_not_found_post; assumption.
  - apply error_response_structured.
Qed.

(** C10: a GET request without a JSON content type and without query
    parameters, whose Accept header is absent or contains neither
    "text/html" nor "*/*", is answered with the structured error 404,
    whatever the GraphiQL flag is.  The page is asked for when the flag is
    set and one of the two texts occurs in the Accept header, an absent
    header counting as the empty string. *)
Theorem get_without_html_accept_404 self request w :
  method request = "GET" →
  json_content_type request = false →
  truthy_params (query_params request) = false →
  (∀ accept, headers request !! "accept" = Some accept →
             str_in "text/html" accept = false ∧ str_in "*/*" accept = false) →
  execute_request self request w = (Ok not_found, w)
  ∧ structured_error not_found 404
  ∧ should_render_graphiql (graphiql self) request
    = graphiql self
      && (str_in "text/html" (default "" (headers request !! "accept"))
          || str_in "*/*" (default "" (headers request !! "accept"))).
Proof.
  intros Hm Hct Hparams Haccept.
  assert (Heq : should_render_graphiql (graphiql self) request
    = graphiql self
      && (str_in "text/html" (default "" (headers request !! "accept"))
          || str_in "*/*" (default "" (headers request !! "accept"))))
    by apply should_render_graphiql_eq.
  split; [|split; [apply error_response_structured | exact Heq]].
  apply execute_request_not_found_get; try assumption.
  rewrite Heq.
  destruct (headers request !! "accept") as [accept|]; simpl.
  - destruct (Haccept accept eq_refl) as [-> ->]. apply andb_false_r.
  - apply andb_false_r.
Qed.

(** C3, amended: a GET request without a JSON content type and without
    query parameters, sent to a view with the GraphiQL flag set and with
    "text/html" or "*/*" in its Accept header, is answered with status
    200, the content type text/html and the GraphiQL page, and the engine
    is not called.  It is the only answer made without the engine that is
    not an error: every other response made without a call of the engine
    is a structured error with status 400, 404 or 405. *)
Theorem explorer_page_served self request w :
  method request = "GET" →
  json_content_type request = false →
  truthy_params (query_params request) = false →
  graphiql self = true →
  str_in "text/html" (headers_get (headers request) "accept" "") = true
  ∨ str_in "*/*" (headers_get (headers request) "accept" "") = true →
  execute_request self request w
  = (Ok explorer_response, log_event EvRenderGraphiql w)
  ∧ status_code explorer_response = 200
  ∧ resp_headers explorer_response = Some {[ "content-type" := "text/html" ]}
  ∧ body explorer_response = BodyText render_graphiql_page
  ∧ existsb is_engine_call (calls_since w (log_event EvRenderGraphiql w)) = false
  ∧ (∀ self' request' w0 response w',
       execute_request self' request' w0 = (Ok response, w') →
       existsb is_engine_call (calls_since w0 w') = false →
       response = explorer_response
       ∨ ∃ code, (code = 400 ∨ code = 404 ∨ code = 405)
                 ∧ structured_error response code).
Proof.
  intros Hm Hct Hparams Hflag Haccept.
  split; [|split; [|split; [|split; [|split]]]]; try reflexivity.
  - apply execute_request_explorer; try assumption.
    rewrite should_render_graphiql_eq, Hflag.
    destruct Haccept as [-> | ->]; [reflexivity | apply orb_true_r].
  - rewrite (calls_since_app w _ [EvRenderGraphiql]) by reflexivity. reflexivity.
  - intros self' request' w0 response w' Hrun Hquiet.
    destruct (execute_request_answer self' request' w0) as (r & w1 & Hrun' & Hanswer).
    rewrite Hrun in Hrun'. injection Hrun' as <- <-.
    destruct Hanswer as [-> _ | code Hcode Herr | d w1 rd allowed Hfound Hengine].
    + left. reflexivity.
    + right. exists code. split; assumption.
    + exfalso.
      destruct (data_found_world request' w0 d w1 Hfound) as (e & He & ->).
      destruct (engine_success_ok self' request' (log_event e w0) rd allowed)
        as (r & Hok).
      rewrite Hok in Hengine. injection Hengine as _ <-.
      rewrite (calls_since_app w0 _
                 [e; EvExecuteSync rd
                       (get_context self' request'
                          (fresh (dom (store (log_event e w0))))) allowed])
        in Hquiet.
      * simpl in Hquiet. rewrite orb_true_r in Hquiet. discriminate.
      * simpl. rewrite <- app_assoc. reflexivity.
Qed.

(** C4, amended: for a GET or POST request whose content type contains
    "application/json" the body is read as JSON; a body that is not JSON
    and a body that is not a mapping are answered with a structured error
    400, and a mapping goes on to [parse_request_data]. *)
Theorem json_body_parsed self request w :
  method request = "POST" ∨ method request = "GET" →
  json_content_type request = true →
  (body_json request = None →
   execute_request self request w = (Ok body_not_json, log_event EvJsonBody w))
  ∧ (∀ j, body_json request = Some j → isinstance_dict j = false →
          execute_request self request w
          = (Ok body_not_a_mapping, log_event EvJsonBody w))
  ∧ (∀ d, body_json request = Some (JDict d) →
          execute_request self request w
          = execute_data self request d (log_event EvJsonBody w))
  ∧ structured_error body_not_json 400
  ∧ structured_error body_not_a_mapping 400.
Proof.
  intros Hm Hct. repeat split.
  - intros Hbody. apply execute_request_body_not_json; assumption.
  - intros j Hbody Hj. apply (execute_request_body_not_a_mapping _ _ _ j); assumption.
  - intros d Hbody. apply execute_request_body_mapping; assumption.
  - apply error_response_structured.
  - apply error_response_structured.
Qed.

(** C8: when the engine executes the operation of a request (its kind,
    if it has one, is permitted), the body of the response is the
    serialised outcome and its status code is the one found, after the
    resolvers ran, on the placeholder that the context handed to the
    engine refers to; it is 200 when the resolvers left the placeholder
    as it was created. *)
Theorem engine_outcome_returned self request w d w1 (q : json) :
  data_found request w d w1 →
  d !! "query" = Some q →
  let rd := {| query := q;
               variables := dict_get d "variables";
               operation_name := dict_get d "operationName" |} in
  let allowed := spec_permitted_kinds (allow_queries_via_get self) (method request) in
  let l := fresh (dom (store w1)) in
  let context := get_context self request l in
  (∀ k, operation_type_of (_schema self) rd = Some k → k ∈ allowed) →
  ∀ outcome effect,
    resolve (_schema self) rd context None = (outcome, effect) →
    ∃ response w',
      execute_request self request w = (Ok response, w')
      ∧ body response = BodyJson (process_result outcome)
      ∧ calls_since w1 w' = [EvExecuteSync rd context allowed]
      ∧ context !! "response" = Some (CtxResponse l)
      ∧ store w' !! l = Some (effect TemporalResponse_default)
      ∧ status_code response = tr_status_code (effect TemporalResponse_default)
      ∧ (effect TemporalResponse_default = TemporalResponse_default →
         status_code response = 200).
Proof.
  intros Hfound Hq rd allowed l context Hallowed outcome effect Hres.
  rewrite (execute_request_data_found self request w d w1 Hfound).
  rewrite (execute_data_query self request w1 d q Hq
             (data_found_method _ _ _ _ Hfound)).
  cbv zeta. fold rd allowed l context.
  assert (Hengine : engine_success self request w1 rd allowed
    = (Ok (Response_new (BodyJson (process_result outcome))
             (tr_status_code (effect TemporalResponse_default)) None),
       world_after_engine w1 rd context allowed (effect TemporalResponse_default))).
  { unfold engine_success. fold l context. rewrite Hres. reflexivity. }
  assert (Hrun :
    match operation_type_of (_schema self) rd with
    | Some k =>
        if bool_decide (k ∈ allowed)
        then engine_success self request w1 rd allowed
        else (Ok (operation_not_allowed k (method request)),
              world_after_engine w1 rd context allowed TemporalResponse_default)
    | None => engine_success self request w1 rd allowed
    end = engine_success self request w1 rd allowed).
  { destruct (operation_type_of (_schema self) rd) as [k|]; [|reflexivity].
    rewrite bool_decide_eq_true_2 by (apply Hallowed; reflexivity). reflexivity. }
  rewrite Hrun, Hengine. eexists _, _. split; [reflexivity|].
  split; [reflexivity|]. split; [|split; [|split; [|split]]].
  - apply calls_since_app. reflexivity.
  - apply context_response.
  - apply lookup_insert_eq.
  - reflexivity.
  - intros Hsame. simpl. rewrite Hsame. reflexivity.
Qed.

End Specification.

(** ** The claims on the requests of [Demo] *)

Section OnDemo.
#[local] Existing Instance Demo.runtime.

(** Settles a fact about a closed term by evaluation. *)
Ltac by_evaluation :=
  lazymatch goal with
  | |- _ ≠ _ => let E := fresh "E" in intros E; vm_compute in E; discriminate E
  | |- _ => vm_compute; reflexivity
  end.

Lemma unsupported_method_405_witness :
  execute_request Demo.view Demo.put_json empty_world
  = (Ok method_not_allowed, empty_world)
  ∧ structured_error method_not_allowed 405
  ∧ calls_since empty_world empty_world = [].
Proof.
  apply (unsupported_method_405 Demo.view Demo.put_json empty_world); by_evaluation.
Defined.

Lemma post_without_json_404_witness :
  execute_request Demo.view Demo.post_text empty_world = (Ok not_found, empty_world)
  ∧ structured_error not_found 404.
Proof.
  apply (post_without_json_404 Demo.view Demo.post_text empty_world); by_evaluation.
Defined.

Lemma get_without_html_accept_404_witness :
  graphiql Demo.view = true
  ∧ execute_request Demo.view Demo.get_json_accept empty_world
    = (Ok not_found, empty_world).
Proof.
  split; [reflexivity|].
  apply (get_without_html_accept_404 Demo.view Demo.get_json_accept empty_world);
    try by_evaluation.
  intros accept Haccept. vm_compute in Haccept.
  injection Haccept as <-. split; reflexivity.
Defined.

Lemma explorer_page_served_witness :
  execute_request Demo.view Demo.get_html empty_world
  = (Ok explorer_response, log_event EvRenderGraphiql empty_world).
Proof.
  apply (explorer_page_served Demo.view Demo.get_html empty_world); try by_evaluation.
  left. by_evaluation.
Defined.

(** C3 as it is written fails: a PUT request is answered without a call of
    the engine, and not with the GraphiQL page. *)
Lemma explorer_is_only_bypass_fails : ¬ explorer_is_only_bypass.
Proof.
  intros Hclaim.
  specialize (Hclaim Demo.view Demo.put_json empty_world method_not_allowed empty_world).
  assert (Hpage : method_not_allowed = explorer_response)
    by (apply Hclaim; by_evaluation).
  apply (f_equal status_code) in Hpage. discriminate Hpage.
Qed.

Lemma json_body_parsed_witness :
  execute_request Demo.view Demo.post_malformed empty_world
  = (Ok body_not_json, log_event EvJsonBody empty_world).
Proof.
  apply (json_body_parsed Demo.view Demo.post_malformed empty_world).
  - left. by_evaluation.
  - by_evaluation.
  - by_evaluation.
Defined.

(** C4 as it is written fails: a PUT request with a JSON content type and a
    body that is not JSON is answered with 405, not with 400. *)
Lemma json_body_rejected_with_400_fails : ¬ json_body_rejected_with_400.
Proof.
  intros Hclaim.
  destruct (Hclaim Demo.view Demo.put_json empty_world)
    as (response & w' & Hrun & code & message & _ & Hstatus).
  - by_evaluation.
  - left. by_evaluation.
  - assert (Hput : execute_request Demo.view Demo.put_json empty_world
                   = (Ok method_not_allowed, empty_world)) by by_evaluation.
    rewrite Hput in Hrun. injection Hrun as <- _.
    discriminate Hstatus.
Qed.

Lemma engine_outcome_returned_witness :
  ∃ response w',
    execute_request Demo.view Demo.post_mutation empty_world = (Ok response, w')
    ∧ body response = BodyJson (JDict {[ "data" := JStr "ok" ]})
    ∧ status_code response = 201.
Proof.
  destruct (engine_outcome_returned Demo.view Demo.post_mutation empty_world
              {[ "query" := JStr "mutation { hello }" ]}
              (log_event EvJsonBody empty_world)
              (JStr "mutation { hello }"))
    with (outcome := {| data := JStr "ok"; errors := []; extensions := JNull |})
         (effect := λ tr, {| tr_status_code := 201; tr_headers := tr_headers tr |})
    as (response & w' & Hrun & Hbody & _ & _ & _ & Hstatus & _).
  - apply found_in_body; [left|..]; by_evaluation.
  - by_evaluation.
  - intros k Hk. vm_compute in Hk. injection Hk as <-.
    apply (bool_decide_unpack _). vm_compute. exact I.
  - reflexivity.
  - exists response, w'. split; [exact Hrun|]. split; [exact Hbody | exact Hstatus].
Defined.

(** The requests of the specification's list of testable properties. *)

Example post_query_answered :
  ∃ w', execute_request Demo.view Demo.post_query empty_world
        = (Ok (Response_new (BodyJson (JDict {[ "data" := JStr "ok" ]})) 200 None), w').
Proof. eexists. vm_compute. reflexivity. Qed.

Example get_query_refused_by_strict_view :
  ∃ w', execute_request Demo.strict_view Demo.get_query empty_world
        = (Ok (error_response "queries are not allowed when using GET"
                 "BadRequestError" 400 None), w').
Proof. eexists. vm_compute. reflexivity. Qed.

Example post_list_refused :
  execute_request Demo.view Demo.post_list empty_world
  = (Ok body_not_a_mapping, log_event EvJsonBody empty_world).
Proof. vm_compute. reflexivity. Qed.

End OnDemo.

(** ** The table of outcomes is complete *)

Section Table.
Context `{Runtime}.
Implicit Types (self : GraphQLView) (request : Request) (w : World).

Lemma execute_data_outcome self request w d w1 :
  data_found request w d w1 →
  ∃ response w',
    execute_data self request d w1 = (Ok response, w')
    ∧ outcome self request w response w'.
Proof.
  intros Hfound. pose proof (data_found_method _ _ _ _ Hfound) as Hm.
  destruct (d !! "query") as [q|] eqn:Hq.
  - rewrite (execute_data_query self request w1 d q Hq Hm). cbv zeta.
    fold (request_data_of d q).
    set (allowed := spec_permitted_kinds _ _).
    destruct (engine_success_ok self request w1 (request_data_of d q) allowed)
      as [response Hok].
    destruct (operation_type_of (_schema self) (request_data_of d q)) as [k|] eqn:Hkind;
      [destruct (bool_decide (k ∈ allowed)) eqn:Hk|].
    + eexists _, _. split; [exact Hok|].
      apply (out_executed self request w d w1 q); try assumption.
      intros k' Hk'. rewrite Hkind in Hk'. injection Hk' as <-.
      apply bool_decide_eq_true in Hk. exact Hk.
    + eexists _, _. split; [reflexivity|].
      apply (out_refused self request w d w1 q k); try assumption.
      apply bool_decide_eq_false in Hk. exact Hk.
    + eexists _, _. split; [exact Hok|].
      apply (out_executed self request w d w1 q); try assumption.
      intros k' Hk'. rewrite Hkind in Hk'. discriminate Hk'.
  - rewrite (execute_data_no_query self request w1 d Hq).
    eexists _, _. split; [reflexivity|].
    apply (out_no_query self request w d w1); assumption.
Qed.

(** [execute_request] always returns, by one of the ways of the table. *)
Lemma execute_request_outcome self request w :
  ∃ response w',
    execute_request self request w = (Ok response, w')
    ∧ outcome self request w response w'.
Proof.
  destruct (decide (method request = "GET")) as [Hget | Hget];
    [|destruct (decide (method request = "POST")) as [Hpost | Hpost]].
  3: { rewrite execute_request_bad_method by assumption.
       eexists _, _. split; [reflexivity|]. apply out_method; assumption. }
  all: assert (Hm : method request = "POST" ∨ method request = "GET") by tauto.
  all: destruct (json_content_type request) eqn:Hct.
  1, 3: destruct (body_json request) as [j|] eqn:Hbody;
    [destruct (not_a_mapping j) as [[d ->] | Hj]|].
  1, 4: rewrite (execute_request_body_mapping self request w d) by assumption;
    apply execute_data_outcome; constructor; assumption.
  1, 3: rewrite (execute_request_body_not_a_mapping self request w j) by assumption;
    eexists _, _; (split; [reflexivity|]);
    apply (out_body_not_a_mapping self request w j); assumption.
  1, 2: rewrite execute_request_body_not_json by assumption;
    eexists _, _; (split; [reflexivity|]);
    apply out_body_not_json; assumption.
  2: { rewrite execute_request_not_found_post by assumption.
       eexists _, _. split; [reflexivity|].
       apply out_not_found; [left|]; assumption. }
  destruct (truthy_params (query_params request)) eqn:Htruthy.
  - destruct (query_params request) as [params|] eqn:Hparams; [|discriminate].
    assert (Hne : params ≠ ∅).
    { intros ->. simpl in Htruthy.
      rewrite bool_decide_eq_true_2 in Htruthy by reflexivity. discriminate. }
    rewrite (execute_request_params self request w params) by assumption.
    destruct (parse_query_params params w) as [[d | e] w1] eqn:Hparse.
    + apply execute_data_outcome.
      apply (found_in_params request w params d w1); assumption.
    + rewrite parse_query_params_cases in Hparse.
      destruct (params !! "variables") as [text|] eqn:Hvars;
        [destruct (json_loads text) eqn:Hloads|]; try discriminate.
      injection Hparse as <- <-.
      eexists _, _. split; [reflexivity|].
      apply (out_params_not_json self request w params text); assumption.
  - destruct (should_render_graphiql (graphiql self) request) eqn:Hrender.
    + rewrite execute_request_explorer by assumption.
      eexists _, _. split; [reflexivity|].
      apply out_explorer; assumption.
    + rewrite execute_request_not_found_get by assumption.
      eexists _, _. split; [reflexivity|].
      apply out_not_found; [right|]; tauto.
Qed.

(** What [execute_request] returned is in the table. *)
Lemma execute_request_returned self request w response w' :
  execute_request self request w = (Ok response, w') →
  outcome self request w response w'.
Proof.
  intros Hrun.
  destruct (execute_request_outcome self request w) as (r & w1 & Hrun' & Hout).
  rewrite Hrun in Hrun'. injection Hrun' as <- <-. exact Hout.
Qed.

(** The mapping is found by reading the body or by parsing the query
    string, and the store is left as it was. *)
Lemma data_found_source request w d w1 :
  data_found request w d w1 →
  (w1 = log_event EvJsonBody w
   ∧ json_content_type request = true)
  ∨ (∃ params, w1 = log_event (EvParseQueryParams params) w
               ∧ method request = "GET"
               ∧ json_content_type request = false
               ∧ query_params request = Some params ∧ params ≠ ∅).
Proof.
  intros [d' _ Hct _ | params d' w1' Hm Hct Hparams Hne Hparse].
  - left. split; [reflexivity | assumption].
  - right. exists params. repeat split; try assumption.
    rewrite parse_query_params_cases in Hparse.
    destruct (params !! "variables") as [text|]; [destruct (json_loads text)|];
      congruence.
Qed.

Lemma engine_success_world self request w rd (allowed : gset OperationType)
    response w' :
  engine_success self request w rd allowed = (Ok response, w') →
  ∃ outcome effect,
    resolve (_schema self) rd (get_context self request (fresh (dom (store w)))) None
    = (outcome, effect)
    ∧ response = Response_new (BodyJson (process_result outcome))
                   (tr_status_code (effect TemporalResponse_default)) None
    ∧ w' = world_after_engine w rd (get_context self request (fresh (dom (store w))))
             allowed (effect TemporalResponse_default).
Proof.
  unfold engine_success.
  destruct (resolve (_schema self) rd _ None) as [outcome effect].
  intros [= <- <-]. exists outcome, effect. repeat split.
Qed.

End Table.

(** ** What a request does to the world *)

Section Worlds.
Context `{Runtime}.
Implicit Types (self : GraphQLView) (request : Request) (w : World).

Lemma data_found_calls request w d w1 :
  data_found request w d w1 →
  store w1 = store w
  ∧ ∃ e, trace w1 = (trace w ++ [e])%list
         ∧ (e = EvJsonBody ∨ ∃ params, e = EvParseQueryParams params).
Proof.
  intros Hfound.
  destruct (data_found_source request w d w1 Hfound)
    as [[-> _] | (params & -> & _)].
  - split; [reflexivity|]. exists EvJsonBody. split; [reflexivity | left; reflexivity].
  - split; [reflexivity|]. exists (EvParseQueryParams params).
    split; [reflexivity | right; exists params; reflexivity].
Qed.

Lemma outcome_calls self request w response w' :
  outcome self request w response w' →
  one_pass (calls_since w w')
  ∧ (existsb is_render (calls_since w w') = true →
     response = explorer_response
     ∧ method request = "GET"
     ∧ json_content_type request = false
     ∧ truthy_params (query_params request) = false
     ∧ should_render_graphiql (graphiql self) request = true).
Proof.
  unfold one_pass.
  intros [Hget Hpost
         | Hm Hct Hbody
         | j Hm Hct Hbody Hj
         | params text Hm Hct Hparams Hvars Hloads
         | Hm Hct Hparams Hrender
         | Hm Hct
         | d w1 Hfound Hq
         | d w1 q k Hfound Hq Hkind Hnot
         | d w1 q r w2 Hfound Hq Hallowed Hengine].
  - rewrite (calls_since_app w w []) by (symmetry; apply app_nil_r).
    split; [tauto | discriminate].
  - rewrite (calls_since_app w _ [EvJsonBody]) by reflexivity.
    split; [tauto | discriminate].
  - rewrite (calls_since_app w _ [EvJsonBody]) by reflexivity.
    split; [tauto | discriminate].
  - rewrite (calls_since_app w _ [EvParseQueryParams params]) by reflexivity.
    split; [|discriminate]. right; right; left. exists params. reflexivity.
  - rewrite (calls_since_app w _ [EvRenderGraphiql]) by reflexivity.
    split; [tauto|]. intros _. repeat split; assumption.
  - rewrite (calls_since_app w w []) by (symmetry; apply app_nil_r).
    split; [tauto | discriminate].
  - destruct (data_found_calls request w d w1 Hfound) as (_ & e & Htrace & He).
    rewrite (calls_since_app w w1 [e]) by exact Htrace.
    split.
    + destruct He as [-> | [params ->]]; [tauto|].
      right; right; left. exists params. reflexivity.
    + destruct He as [-> | [params ->]]; discriminate.
  - destruct (data_found_calls request w d w1 Hfound) as (_ & e & Htrace & He).
    rewrite (calls_since_app w _ [e; EvExecuteSync (request_data_of d q)
               (get_context self request (fresh (dom (store w1))))
               (spec_permitted_kinds (allow_queries_via_get self) (method request))]).
    2: { simpl. rewrite Htrace, <- app_assoc. reflexivity. }
    split.
    + right; right; right; right. eexists _, _, _, _. split; [reflexivity | exact He].
    + destruct He as [-> | [params ->]]; discriminate.
  - destruct (data_found_calls request w d w1 Hfound) as (_ & e & Htrace & He).
    destruct (engine_success_world _ _ _ _ _ _ _ Hengine)
      as (result & effect & _ & _ & ->).
    rewrite (calls_since_app w _ [e; EvExecuteSync (request_data_of d q)
               (get_context self request (fresh (dom (store w1))))
               (spec_permitted_kinds (allow_queries_via_get self) (method request))]).
    2: { simpl. rewrite Htrace, <- app_assoc. reflexivity. }
    split.
    + right; right; right; right. eexists _, _, _, _. split; [reflexivity | exact He].
    + destruct He as [-> | [params ->]]; discriminate.
Qed.

Lemma outcome_store self request w response w' :
  outcome self request w response w' →
  store w' = store w
  ∨ ∃ placeholder, store w' = <[fresh (dom (store w)) := placeholder]> (store w).
Proof.
  intros [Hget Hpost
         | Hm Hct Hbody
         | j Hm Hct Hbody Hj
         | params text Hm Hct Hparams Hvars Hloads
         | Hm Hct Hparams Hrender
         | Hm Hct
         | d w1 Hfound Hq
         | d w1 q k Hfound Hq Hkind Hnot
         | d w1 q r w2 Hfound Hq Hallowed Hengine];
    try (left; reflexivity).
  - left. apply (data_found_calls request w d w1 Hfound).
  - right. destruct (data_found_calls request w d w1 Hfound) as (Hstore & _).
    exists TemporalResponse_default. simpl. rewrite Hstore. reflexivity.
  - right. destruct (data_found_calls request w d w1 Hfound) as (Hstore & _).
    destruct (engine_success_world _ _ _ _ _ _ _ Hengine)
      as (result & effect & _ & _ & ->).
    exists (effect TemporalResponse_default). simpl. rewrite Hstore. reflexivity.
Qed.

Lemma outcome_headers self request w response w' :
  outcome self request w response w' →
  response = explorer_response ∨ resp_headers response = None.
Proof.
  intros [Hget Hpost
         | Hm Hct Hbody
         | j Hm Hct Hbody Hj
         | params text Hm Hct Hparams Hvars Hloads
         | Hm Hct Hparams Hrender
         | Hm Hct
         | d w1 Hfound Hq
         | d w1 q k Hfound Hq Hkind Hnot
         | d w1 q r w2 Hfound Hq Hallowed Hengine];
    try (right; reflexivity); try (left; reflexivity).
  destruct (engine_success_world _ _ _ _ _ _ _ Hengine)
    as (result & effect & _ & -> & _).
  right. reflexivity.
Qed.

Lemma outcome_body self request w response w' :
  outcome self request w response w' →
  response = explorer_response ∨ ∃ j, body response = BodyJson j.
Proof.
  intros [Hget Hpost
         | Hm Hct Hbody
         | j Hm Hct Hbody Hj
         | params text Hm Hct Hparams Hvars Hloads
         | Hm Hct Hparams Hrender
         | Hm Hct
         | d w1 Hfound Hq
         | d w1 q k Hfound Hq Hkind Hnot
         | d w1 q r w2 Hfound Hq Hallowed Hengine];
    try (right; eexists; reflexivity); try (left; reflexivity).
  destruct (engine_success_world _ _ _ _ _ _ _ Hengine)
    as (result & effect & _ & -> & _).
  right. eexists. reflexivity.
Qed.

End Worlds.

(** ** Containment of strings *)

Lemma prefix_append (a b : string) : String.prefix a (a +:+ b) = true.
Proof.
  induction a as [|c a IH]; simpl.
  - destruct b; reflexivity.
  - destruct (ascii_dec c c) as [_ | Hne]; [exact IH | contradiction].
Qed.

Lemma prefix_inv (a s : string) :
  String.prefix a s = true → ∃ b, s = a +:+ b.
Proof.
  revert s. induction a as [|c a IH]; intros s Hp.
  - exists s. reflexivity.
  - destruct s as [|c' s]; simpl in Hp; [discriminate|].
    destruct (ascii_dec c c') as [<- | _]; [|discriminate].
    destruct (IH s Hp) as [b ->]. exists b. reflexivity.
Qed.

Lemma str_in_unfold (needle hay : string) :
  str_in needle hay
  = String.prefix needle hay
    || match hay with
       | EmptyString => false
       | String _ rest => str_in needle rest
       end.
Proof.
  destruct hay; reflexivity.
Qed.

Lemma str_in_append (needle pre post : string) :
  str_in needle (pre +:+ needle +:+ post) = true.
Proof.
  induction pre as [|c pre IH].
  - change ("" +:+ needle +:+ post) with (needle +:+ post).
    rewrite str_in_unfold, prefix_append. reflexivity.
  - change (String c pre +:+ needle +:+ post)
      with (String c (pre +:+ needle +:+ post)).
    rewrite str_in_unfold, IH. apply orb_true_r.
Qed.

Lemma str_in_inv (needle hay : string) :
  str_in needle hay = true → ∃ pre post, hay = pre +:+ needle +:+ post.
Proof.
  induction hay as [|c hay IH]; rewrite str_in_unfold; intros Hin.
  - rewrite orb_false_r in Hin. destruct (prefix_inv _ _ Hin) as [post ->].
    exists "", post. reflexivity.
  - apply orb_true_iff in Hin. destruct Hin as [Hp | Hin].
    + destruct (prefix_inv _ _ Hp) as [post ->]. exists "", post. reflexivity.
    + destruct (IH Hin) as (pre & post & ->). exists (String c pre), post. reflexivity.
Qed.

Lemma str_in_iff (needle hay : string) :
  str_in needle hay = true ↔ ∃ pre post, hay = pre +:+ needle +:+ post.
Proof.
  split; [apply str_in_inv|].
  intros (pre & post & ->). apply str_in_append.
Qed.

(** ** Further properties of the view *)

Section Further.
Context `{Runtime}.
Implicit Types (self : GraphQLView) (request : Request) (w : World).

(** X1: a view constructed with the GraphiQL page switched off (by the
    deprecated keyword [render_graphiql], whatever [graphiql] says, or by
    [graphiql] when the keyword is not given) never answers with the page:
    the page is not rendered and the body of every response is JSON. *)
Theorem explorer_off_never_rendered (schema : BaseSchema) (flag allow : bool)
    (kwargs : gmap string bool) request w response w' :
  kwargs !! "render_graphiql" = Some false
  ∨ (kwargs !! "render_graphiql" = None ∧ flag = false) →
  execute_request (GraphQLView_init schema flag allow kwargs) request w
  = (Ok response, w') →
  existsb is_render (calls_since w w') = false
  ∧ ∃ j, body response = BodyJson j.
Proof.
  intros Hoff Hrun.
  assert (Hflag : graphiql (GraphQLView_init schema flag allow kwargs) = false).
  { unfold GraphQLView_init. simpl.
    destruct Hoff as [-> | [-> ->]]; reflexivity. }
  pose proof (execute_request_returned _ _ _ _ _ Hrun) as Hout.
  assert (Hquiet : existsb is_render (calls_since w w') = false).
  { destruct (existsb is_render (calls_since w w')) eqn:Hrender; [|reflexivity].
    destruct (outcome_calls _ _ _ _ _ Hout) as (_ & Hexplorer).
    destruct (Hexplorer Hrender) as (_ & _ & _ & _ & Hshould).
    rewrite Hflag in Hshould. discriminate Hshould. }
  split; [exact Hquiet|].
  destruct (outcome_body _ _ _ _ _ Hout) as [-> | Hjson]; [|exact Hjson].
  exfalso. inversion Hout as [| | | | Hm Hct Hparams Hshould Hw | | | |];
    try discriminate.
  - rewrite Hflag in Hshould. discriminate Hshould.
  - subst.
    match goal with
    | He : engine_success _ _ _ _ _ = _ |- _ =>
        destruct (engine_success_world _ _ _ _ _ _ _ He) as (? & ? & _ & Hr & _)
    end.
    discriminate Hr.
Qed.

(** X2: the GraphiQL page is rendered only for a GET request without a JSON
    content type and without query parameters, by a view whose flag is set,
    when "text/html" or "*/*" occurs in the Accept header; the response is
    then the page. *)
Theorem rendered_only_on_request self request w response w' :
  execute_request self request w = (Ok response, w') →
  existsb is_render (calls_since w w') = true →
  response = explorer_response
  ∧ method request = "GET"
  ∧ json_content_type request = false
  ∧ truthy_params (query_params request) = false
  ∧ graphiql self = true
  ∧ (str_in "text/html" (headers_get (headers request) "accept" "") = true
     ∨ str_in "*/*" (headers_get (headers request) "accept" "") = true).
Proof.
  intros Hrun Hrender.
  pose proof (execute_request_returned _ _ _ _ _ Hrun) as Hout.
  destruct (outcome_calls _ _ _ _ _ Hout) as (_ & Hexplorer).
  destruct (Hexplorer Hrender) as (Hr & Hm & Hct & Hparams & Hshould).
  rewrite should_render_graphiql_eq in Hshould.
  apply andb_true_iff in Hshould. destruct Hshould as [Hflag Haccept].
  apply orb_true_iff in Haccept.
  repeat split; assumption.
Qed.

(** X3: a request is handled in one pass.  [execute_request] returns, and
    between its start and its end it did nothing, or read the body once, or
    parsed the query string once, or rendered the page once, or read the
    body or parsed the query string and then called the engine once: the
    engine is called at most once and last, never after the page was
    rendered, and the body and the query string are never both used. *)
Theorem handled_in_one_pass self request w :
  ∃ response w',
    execute_request self request w = (Ok response, w')
    ∧ one_pass (calls_since w w')
    ∧ trace w' = (trace w ++ calls_since w w')%list.
Proof.
  destruct (execute_request_outcome self request w) as (response & w' & Hrun & Hout).
  exists response, w'. split; [exact Hrun|].
  destruct (outcome_calls _ _ _ _ _ Hout) as (Hpass & _).
  split; [exact Hpass|].
  assert (Hprefix : ∃ evs, trace w' = (trace w ++ evs)%list).
  { inversion Hout; subst;
      try (exists []; symmetry; apply app_nil_r);
      try (eexists [_]; reflexivity).
    - match goal with
      | Hf : data_found _ _ _ _ |- _ =>
          destruct (data_found_calls _ _ _ _ Hf) as (_ & e & Htrace & _)
      end.
      exists [e]. exact Htrace.
    - match goal with
      | Hf : data_found _ _ _ _ |- _ =>
          destruct (data_found_calls _ _ _ _ Hf) as (_ & e & Htrace & _)
      end.
      eexists [e; _]. simpl. rewrite Htrace, <- app_assoc. reflexivity.
    - match goal with
      | Hf : data_found _ _ _ _ |- _ =>
          destruct (data_found_calls _ _ _ _ Hf) as (_ & e & Htrace & _)
      end.
      match goal with
      | He : engine_success _ _ _ _ _ = _ |- _ =>
          destruct (engine_success_world _ _ _ _ _ _ _ He) as (? & ? & _ & _ & ->)
      end.
      eexists [e; _]. simpl. rewrite Htrace, <- app_assoc. reflexivity. }
  destruct Hprefix as [evs Hevs].
  rewrite (calls_since_app w w' evs Hevs). exact Hevs.
Qed.

(** X5: only the GraphiQL page is sent with headers.  Every other response,
    the one that carries the outcome of the engine included, has no
    headers: what the resolvers write to the headers of the placeholder
    does not reach the response. *)
Theorem headers_only_on_page self request w :
  ∃ response w',
    execute_request self request w = (Ok response, w')
    ∧ (response = explorer_response ∨ resp_headers response = None).
Proof.
  destruct (execute_request_outcome self request w) as (response & w' & Hrun & Hout).
  exists response, w'. split; [exact Hrun|].
  apply (outcome_headers _ _ _ _ _ Hout).
Qed.

(** X6: the two flags of the view matter for GET only.  Two views over the
    same schema answer a POST request alike, whatever their [graphiql] and
    [allow_queries_via_get] are. *)
Theorem post_ignores_flags self self' request w :
  method request = "POST" →
  _schema self = _schema self' →
  execute_request self request w = execute_request self' request w.
Proof.
  intros Hm Hschema.
  assert (Hok : method request = "POST" ∨ method request = "GET") by (left; exact Hm).
  assert (Hdata : ∀ d w1, execute_data self request d w1 = execute_data self' request d w1).
  { intros d w1. destruct (d !! "query") as [q|] eqn:Hq.
    - rewrite (execute_data_query self request w1 d q Hq Hok).
      rewrite (execute_data_query self' request w1 d q Hq Hok).
      cbv zeta. unfold engine_success, get_context, spec_permitted_kinds.
      rewrite Hschema, Hm. reflexivity.
    - rewrite !execute_data_no_query by exact Hq. reflexivity. }
  destruct (json_content_type request) eqn:Hct.
  - destruct (body_json request) as [j|] eqn:Hbody;
      [destruct (not_a_mapping j) as [[d ->] | Hj]|].
    + rewrite !(execute_request_body_mapping _ request w d) by assumption.
      apply Hdata.
    + rewrite !(execute_request_body_not_a_mapping _ request w j) by assumption.
      reflexivity.
    + rewrite !execute_request_body_not_json by assumption. reflexivity.
  - rewrite !execute_request_not_found_post by assumption. reflexivity.
Qed.

(** X7: an empty mapping of query parameters counts as no query string.  A
    request without a JSON content type whose [query_params] is the empty
    mapping is answered as the same request with [query_params] set to
    [None]. *)
Theorem empty_params_as_none self request w :
  json_content_type request = false →
  query_params request = Some ∅ →
  execute_request self request w
  = execute_request self (without_query_params request) w.
Proof.
  intros Hct Hparams.
  assert (Hct' : json_content_type (without_query_params request) = false) by exact Hct.
  assert (Htruthy : truthy_params (query_params request) = false).
  { rewrite Hparams. simpl. rewrite bool_decide_eq_true_2 by reflexivity. reflexivity. }
  assert (Htruthy' : truthy_params (query_params (without_query_params request)) = false)
    by reflexivity.
  destruct (decide (method request = "GET")) as [Hget | Hget];
    [|destruct (decide (method request = "POST")) as [Hpost | Hpost]].
  - destruct (should_render_graphiql (graphiql self) request) eqn:Hrender.
    + rewrite (execute_request_explorer self request w) by assumption.
      rewrite (execute_request_explorer self (without_query_params request) w)
        by assumption.
      reflexivity.
    + rewrite (execute_request_not_found_get self request w) by assumption.
      rewrite (execute_request_not_found_get self (without_query_params request) w)
        by assumption.
      reflexivity.
  - rewrite (execute_request_not_found_post self request w) by assumption.
    rewrite (execute_request_not_found_post self (without_query_params request) w)
      by assumption.
    reflexivity.
  - rewrite (execute_request_bad_method self request w) by assumption.
    rewrite (execute_request_bad_method self (without_query_params request) w)
      by assumption.
    reflexivity.
Qed.

(** X8: the content type and the Accept header are tested by containment.
    A request has a JSON content type exactly when "application/json"
    occurs somewhere in the value of its content-type header, and the page
    is asked for exactly when "text/html" or "*/*" occurs somewhere in the
    value of its Accept header; an absent header is the empty string. *)
Theorem negotiation_by_containment request :
  (json_content_type request = true
   ↔ ∃ pre post,
       default "" (headers request !! "content-type")
       = pre +:+ "application/json" +:+ post)
  ∧ (should_render_graphiql true request = true
     ↔ ∃ pre post,
         default "" (headers request !! "accept") = pre +:+ "text/html" +:+ post
         ∨ default "" (headers request !! "accept") = pre +:+ "*/*" +:+ post).
Proof.
  split.
  - unfold json_content_type. apply str_in_iff.
  - rewrite should_render_graphiql_eq. simpl andb.
    rewrite orb_true_iff, !str_in_iff.
    change (headers_get (headers request) "accept" "")
      with (default "" (headers request !! "accept")).
    split.
    + intros [(pre & post & Heq) | (pre & post & Heq)]; exists pre, post; tauto.
    + intros (pre & post & [Heq | Heq]); [left | right]; exists pre, post; exact Heq.
Qed.

End Further.

(** ** The further properties on the requests of [Demo] and [Cases] *)

Section OnCases.
#[local] Existing Instance Demo.runtime.

(** Settles a fact about a closed term by evaluation. *)
Ltac evaluated :=
  lazymatch goal with
  | |- _ ≠ _ => let E := fresh "E" in intros E; vm_compute in E; discriminate E
  | |- _ => vm_compute; reflexivity
  end.

Lemma explorer_off_never_rendered_witness :
  execute_request Cases.quiet_view Demo.get_html empty_world
  = (Ok not_found, empty_world)
  ∧ existsb is_render (calls_since empty_world empty_world) = false
  ∧ ∃ j, body not_found = BodyJson j.
Proof.
  split; [evaluated|].
  apply (explorer_off_never_rendered Demo.schema true true
           {[ "render_graphiql" := false ]} Demo.get_html empty_world
           not_found empty_world).
  - left. evaluated.
  - evaluated.
Defined.

Lemma rendered_only_on_request_witness :
  method Demo.get_html = "GET" ∧ graphiql Demo.view = true.
Proof.
  destruct (rendered_only_on_request Demo.view Demo.get_html empty_world
              explorer_response (log_event EvRenderGraphiql empty_world))
    as (_ & Hm & _ & _ & Hflag & _).
  - evaluated.
  - evaluated.
  - split; [exact Hm | exact Hflag].
Defined.

Lemma post_ignores_flags_witness :
  allow_queries_via_get Demo.view ≠ allow_queries_via_get Demo.strict_view
  ∧ execute_request Demo.view Demo.post_mutation empty_world
    = execute_request Demo.strict_view Demo.post_mutation empty_world.
Proof.
  split; [evaluated|].
  apply (post_ignores_flags Demo.view Demo.strict_view Demo.post_mutation empty_world);
    reflexivity.
Defined.

Lemma empty_params_as_none_witness :
  execute_request Demo.view Cases.get_empty_params empty_world
  = execute_request Demo.view (without_query_params Cases.get_empty_params) empty_world.
Proof.
  apply (empty_params_as_none Demo.view Cases.get_empty_params empty_world); evaluated.
Defined.

Lemma negotiation_by_containment_witness :
  json_content_type Cases.post_charset = true.
Proof.
  apply (negotiation_by_containment Cases.post_charset).
  exists "", "; charset=utf-8". evaluated.
Defined.

(** The resolvers of [Cases.header_view] set a header and the status 202 on
    the placeholder: the status reaches the response, the header does not. *)
Example placeholder_headers_dropped :
  ∃ w', execute_request Cases.header_view Demo.post_query empty_world
        = (Ok (Response_new (BodyJson (JDict {[ "data" := JStr "ok" ]})) 202 None), w')
        ∧ (tr_headers <$> store w' !! 0%nat) = Some {[ "x-request-id" := "42" ]}.
Proof. eexists. split; vm_compute; reflexivity. Qed.

(** A query string wins over the Accept header: no page for a GET request
    that carries a query. *)
Example query_string_before_page :
  ∃ w', execute_request Demo.view Cases.get_html_with_query empty_world
        = (Ok (Response_new (BodyJson (JDict {[ "data" := JStr "ok" ]})) 200 None), w').
Proof. eexists. vm_compute. reflexivity. Qed.

End OnCases.

(** ** Where the operation is read from, and where the status comes from *)

Section Sources.
Context `{Runtime}.
Implicit Types (self : GraphQLView) (request : Request) (w : World).

Lemma outcome_sources self request w response w' :
  outcome self request w response w' →
  (existsb is_body_read (calls_since w w') = true
   ↔ (method request = "POST" ∨ method request = "GET")
     ∧ json_content_type request = true)
  ∧ (existsb is_params_parse (calls_since w w') = true
     ↔ method request = "GET"
       ∧ json_content_type request = false
       ∧ truthy_params (query_params request) = true).
Proof.
  assert (Hfound_calls : ∀ d w1 evs,
    data_found request w d w1 →
    (existsb is_body_read (calls_since w w1) = true
     ↔ (method request = "POST" ∨ method request = "GET")
       ∧ json_content_type request = true)
    ∧ (existsb is_params_parse (calls_since w w1) = true
       ↔ method request = "GET"
         ∧ json_content_type request = false
         ∧ truthy_params (query_params request) = true)
    ∧ ∀ e, is_engine_call e = true →
           calls_since w {| trace := trace w1 ++ [e]; store := evs |}
           = (calls_since w w1 ++ [e])%list).
  { intros d w1 st Hfound.
    pose proof (data_found_method _ _ _ _ Hfound) as Hm.
    destruct (data_found_source request w d w1 Hfound)
      as [[-> Hct] | (params & -> & Hget & Hct & Hparams & Hne)].
    - rewrite (calls_since_app w _ [EvJsonBody]) by reflexivity. simpl.
      split; [|split].
      + tauto.
      + split; [discriminate|]. intros (_ & Hct' & _). congruence.
      + intros e _. apply calls_since_app. simpl. rewrite <- app_assoc. reflexivity.
    - rewrite (calls_since_app w _ [EvParseQueryParams params]) by reflexivity. simpl.
      split; [|split].
      + split; [discriminate|]. intros (_ & Hct'). congruence.
      + split; [|reflexivity]. intros _. repeat split; try assumption.
        rewrite Hparams. apply truthy_params_some. exact Hne.
      + intros e _. apply calls_since_app. simpl. rewrite <- app_assoc. reflexivity. }
  intros [Hget Hpost
         | Hm Hct Hbody
         | j Hm Hct Hbody Hj
         | params text Hm Hct Hparams Hvars Hloads
         | Hm Hct Hparams Hrender
         | Hm Hct
         | d w1 Hfound Hq
         | d w1 q k Hfound Hq Hkind Hnot
         | d w1 q r w2 Hfound Hq Hallowed Hengine].
  - rewrite (calls_since_app w w []) by (symmetry; apply app_nil_r). simpl.
    split; (split; [discriminate|]); intros Hc; exfalso; tauto.
  - rewrite (calls_since_app w _ [EvJsonBody]) by reflexivity. simpl.
    split; [tauto|]. split; [discriminate|]. intros (_ & Hct' & _). congruence.
  - rewrite (calls_since_app w _ [EvJsonBody]) by reflexivity. simpl.
    split; [tauto|]. split; [discriminate|]. intros (_ & Hct' & _). congruence.
  - rewrite (calls_since_app w _ [EvParseQueryParams params]) by reflexivity. simpl.
    split.
    + split; [discriminate|]. intros (_ & Hct'). congruence.
    + split; [|reflexivity]. intros _. repeat split; try assumption.
      rewrite Hparams. apply truthy_params_some.
      intros ->. rewrite lookup_empty in Hvars. discriminate Hvars.
  - rewrite (calls_since_app w _ [EvRenderGraphiql]) by reflexivity. simpl.
    split.
    + split; [discriminate|]. intros (_ & Hct'). congruence.
    + split; [discriminate|]. intros (_ & _ & Hparams'). congruence.
  - rewrite (calls_since_app w w []) by (symmetry; apply app_nil_r). simpl.
    split.
    + split; [discriminate|]. intros (_ & Hct'). congruence.
    + split; [discriminate|]. intros (Hget & _ & Hparams').
      destruct Hm as [Hpost | (_ & Hparams & _)]; congruence.
  - destruct (Hfound_calls d w1 ∅ Hfound) as (Hbody & Hparams & _).
    split; assumption.
  - destruct (Hfound_calls d w1
                (<[fresh (dom (store w1)) := TemporalResponse_default]> (store w1))
                Hfound) as (Hbody & Hparams & Happ).
    unfold world_after_engine. rewrite Happ by reflexivity.
    rewrite !existsb_app. simpl. rewrite !orb_false_r. split; assumption.
  - destruct (engine_success_world _ _ _ _ _ _ _ Hengine)
      as (result & effect & _ & _ & ->).
    destruct (Hfound_calls d w1
                (<[fresh (dom (store w1)) := effect TemporalResponse_default]> (store w1))
                Hfound) as (Hbody & Hparams & Happ).
    unfold world_after_engine. rewrite Happ by reflexivity.
    rewrite !existsb_app. simpl. rewrite !orb_false_r. split; assumption.
Qed.

Lemma outcome_status self request w response w' :
  outcome self request w response w' →
  (status_code response = 200 ∨ status_code response = 400
   ∨ status_code response = 404 ∨ status_code response = 405)
  ∨ ∃ placeholder,
      store w !! fresh (dom (store w)) = None
      ∧ store w' !! fresh (dom (store w)) = Some placeholder
      ∧ status_code response = tr_status_code placeholder.
Proof.
  intros [Hget Hpost
         | Hm Hct Hbody
         | j Hm Hct Hbody Hj
         | params text Hm Hct Hparams Hvars Hloads
         | Hm Hct Hparams Hrender
         | Hm Hct
         | d w1 Hfound Hq
         | d w1 q k Hfound Hq Hkind Hnot
         | d w1 q r w2 Hfound Hq Hallowed Hengine];
    try (left; simpl; tauto).
  right.
  destruct (data_found_calls request w d w1 Hfound) as (Hstore & _).
  destruct (engine_success_world _ _ _ _ _ _ _ Hengine)
    as (result & effect & _ & -> & ->).
  exists (effect TemporalResponse_default). simpl. rewrite Hstore.
  split; [|split].
  - apply not_elem_of_dom. apply is_fresh.
  - apply lookup_insert_eq.
  - reflexivity.
Qed.

(** X10: where the operation is read from.  The body is read exactly for
    the GET and POST requests that have a JSON content type, and the query
    string is parsed exactly for the GET requests that have none and carry
    parameters; so the body of a request without a JSON content type is
    never read, and the query string of a POST request never parsed. *)
Theorem operation_source self request w :
  ∃ response w',
    execute_request self request w = (Ok response, w')
    ∧ (existsb is_body_read (calls_since w w') = true
       ↔ (method request = "POST" ∨ method request = "GET")
         ∧ json_content_type request = true)
    ∧ (existsb is_params_parse (calls_since w w') = true
       ↔ method request = "GET"
         ∧ json_content_type request = false
         ∧ truthy_params (query_params request) = true).
Proof.
  destruct (execute_request_outcome self request w) as (response & w' & Hrun & Hout).
  exists response, w'. split; [exact Hrun|].
  apply (outcome_sources _ _ _ _ _ Hout).
Qed.

(** X11: where the status comes from.  The status of a response is 200,
    400, 404 or 405, or else it is the status found on the placeholder the
    request created, at a location of the store that was free before. *)
Theorem status_origin self request w :
  ∃ response w',
    execute_request self request w = (Ok response, w')
    ∧ ((status_code response = 200 ∨ status_code response = 400
        ∨ status_code response = 404 ∨ status_code response = 405)
       ∨ ∃ l placeholder,
           store w !! l = None
           ∧ store w' !! l = Some placeholder
           ∧ status_code response = tr_status_code placeholder).
Proof.
  destruct (execute_request_outcome self request w) as (response & w' & Hrun & Hout).
  exists response, w'. split; [exact Hrun|].
  destruct (outcome_status _ _ _ _ _ Hout) as [Hcode | (placeholder & Hfree & Hnew & Hs)].
  - left. exact Hcode.
  - right. exists (fresh (dom (store w))), placeholder. repeat split; assumption.
Qed.

End Sources.

(** ** The call of the engine *)

Section EngineCall.
Context `{Runtime}.
Implicit Types (self : GraphQLView) (request : Request) (w : World).

(** A mapping with a query reaches the engine: one call, with the parsed
    operation and the permitted kinds; a kind that is not permitted is
    answered with [operation_not_allowed]. *)
Lemma execute_data_calls_engine self request w d w1 (q : json) :
  data_found request w d w1 →
  d !! "query" = Some q →
  ∃ response w',
    execute_data self request d w1 = (Ok response, w')
    ∧ trace w' = (trace w1 ++ [EvExecuteSync (request_data_of d q)
                     (get_context self request (fresh (dom (store w1))))
                     (spec_permitted_kinds (allow_queries_via_get self)
                        (method request))])%list
    ∧ ∀ k, operation_type_of (_schema self) (request_data_of d q) = Some k →
           k ∉ spec_permitted_kinds (allow_queries_via_get self) (method request) →
           response = operation_not_allowed k (method request).
Proof.
  intros Hfound Hq.
  pose proof (data_found_method _ _ _ _ Hfound) as Hm.
  rewrite (execute_data_query self request w1 d q Hq Hm). cbv zeta.
  fold (request_data_of d q).
  set (allowed := spec_permitted_kinds _ _).
  destruct (engine_success_ok self request w1 (request_data_of d q) allowed) as (r & Hok).
  destruct (operation_type_of (_schema self) (request_data_of d q)) as [k|];
    [destruct (bool_decide (k ∈ allowed)) eqn:Hk|].
  - rewrite Hok. eexists _, _. split; [reflexivity|]. split; [reflexivity|].
    intros k' [= <-] Hnot. apply bool_decide_eq_true in Hk. contradiction.
  - eexists _, _. split; [reflexivity|]. split; [reflexivity|].
    intros k' [= <-] _. reflexivity.
  - rewrite Hok. eexists _, _. split; [reflexivity|]. split; [reflexivity|].
    intros k' [=].
Qed.

Lemma execute_request_calls_engine self request w d w1 (q : json) :
  data_found request w d w1 →
  d !! "query" = Some q →
  ∃ response w' e,
    execute_request self request w = (Ok response, w')
    ∧ w1 = log_event e w
    ∧ calls_since w w'
      = [e; EvExecuteSync (request_data_of d q)
              (get_context self request (fresh (dom (store w))))
              (spec_permitted_kinds (allow_queries_via_get self) (method request))].
Proof.
  intros Hfound Hq.
  destruct (execute_data_calls_engine self request w d w1 q Hfound Hq)
    as (response & w' & Hrun & Htrace & _).
  destruct (data_found_world request w d w1 Hfound) as (e & _ & ->).
  exists response, w', e.
  rewrite (execute_request_data_found self request w d _ Hfound).
  split; [exact Hrun|]. split; [reflexivity|].
  apply calls_since_app. rewrite Htrace. simpl. rewrite <- app_assoc. reflexivity.
Qed.

Lemma execute_request_with_sync self request :
  execute_request_with (execute_sync (_schema self)) self request
  = execute_request self request.
Proof. reflexivity. Qed.

Lemma execute_request_with_data_found (engine : Engine) self request w d w1 :
  data_found request w d w1 →
  execute_request_with engine self request w
  = execute_data_with engine self request d w1.
Proof.
  intros [d' Hm Hct Hbody | params d' w1' Hm Hct Hparams Hne Hparse];
    unfold execute_request_with.
  - apply method_in_set in Hm. rewrite Hm. simpl.
    unfold json_content_type in Hct. rewrite Hct.
    unfold json_body. rewrite Hbody. reflexivity.
  - rewrite (proj2 (method_in_set _)) by (right; assumption). simpl.
    unfold json_content_type in Hct. rewrite Hct, Hm, Hparams.
    rewrite truthy_params_some by assumption. simpl.
    unfold_M. rewrite Hparse. reflexivity.
Qed.

(** An exception of the engine that is not [InvalidOperationTypeError] is
    not handled: it leaves [execute_request]. *)
Lemma engine_exception_leaves (e : exn) self request w d w1 (q : json) :
  data_found request w d w1 →
  d !! "query" = Some q →
  is_InvalidOperationTypeError e = false →
  execute_request_with (raising_engine e) self request w
  = (Raise e,
     {| trace := trace w1;
        store := <[fresh (dom (store w1)) := TemporalResponse_default]> (store w1) |}).
Proof.
  intros Hfound Hq He.
  rewrite (execute_request_with_data_found _ self request w d w1 Hfound).
  pose proof (data_found_method _ _ _ _ Hfound) as Hm.
  unfold execute_data_with, parse_request_data, raising_engine. unfold_M.
  rewrite Hq.
  destruct (from_http_permitted (allow_queries_via_get self) (method request) w1 Hm)
    as (kinds & Hfrom & _).
  rewrite Hfrom. unfold TemporalResponse_new. cbv zeta.
  rewrite He. reflexivity.
Qed.

(** The kinds of response: the page, the outcome of the engine with the
    status of the placeholder, or a structured error. *)
Lemma outcome_kinds self request w response w' :
  outcome self request w response w' →
  response = explorer_response
  ∨ (∃ rd context result effect,
       resolve (_schema self) rd context None = (result, effect)
       ∧ body response = BodyJson (process_result result)
       ∧ status_code response = tr_status_code (effect TemporalResponse_default)
       ∧ existsb is_engine_call (calls_since w w') = true)
  ∨ ∃ code, (code = 400 ∨ code = 404 ∨ code = 405) ∧ structured_error response code.
Proof.
  intros [Hget Hpost
         | Hm Hct Hbody
         | j Hm Hct Hbody Hj
         | params text Hm Hct Hparams Hvars Hloads
         | Hm Hct Hparams Hrender
         | Hm Hct
         | d w1 Hfound Hq
         | d w1 q k Hfound Hq Hkind Hnot
         | d w1 q r w2 Hfound Hq Hallowed Hengine].
  1: right; right; exists 405.
  2-4: right; right; exists 400.
  5: left; reflexivity.
  5: right; right; exists 404.
  6-7: right; right; exists 400.
  1-7: split; [tauto | apply error_response_structured].
  right; left.
  destruct (data_found_world request w d w1 Hfound) as (e & _ & ->).
  destruct (engine_success_world _ _ _ _ _ _ _ Hengine)
    as (result & effect & Hres & -> & ->).
  eexists _, _, result, effect. split; [exact Hres|].
  split; [reflexivity|]. split; [reflexivity|].
  rewrite (calls_since_app w _
             [e; EvExecuteSync (request_data_of d q)
                   (get_context self request (fresh (dom (store (log_event e w)))))
                   (spec_permitted_kinds (allow_queries_via_get self) (method request))]).
  - simpl. apply orb_true_r.
  - simpl. rewrite <- app_assoc. reflexivity.
Qed.

(** The store and the call of the engine go together. *)
Lemma outcome_store_calls self request w response w' :
  outcome self request w response w' →
  (existsb is_engine_call (calls_since w w') = false ∧ store w' = store w)
  ∨ (existsb is_engine_call (calls_since w w') = true
     ∧ ∃ placeholder,
         store w' = <[fresh (dom (store w)) := placeholder]> (store w)).
Proof.
  intros Hout.
  destruct (outcome_calls _ _ _ _ _ Hout) as (Hpass & _).
  inversion Hout as [Hget Hpost
         | Hm Hct Hbody
         | j Hm Hct Hbody Hj
         | params text Hm Hct Hparams Hvars Hloads
         | Hm Hct Hparams Hrender
         | Hm Hct
         | d w1 Hfound Hq
         | d w1 q k Hfound Hq Hkind Hnot
         | d w1 q r w2 Hfound Hq Hallowed Hengine]; subst.
  1: left; rewrite (calls_since_app w' w' []) by (symmetry; apply app_nil_r).
  2-3: left; rewrite (calls_since_app w _ [EvJsonBody]) by reflexivity.
  4: left; rewrite (calls_since_app w _ [EvParseQueryParams params]) by reflexivity.
  5: left; rewrite (calls_since_app w _ [EvRenderGraphiql]) by reflexivity.
  6: left; rewrite (calls_since_app w' w' []) by (symmetry; apply app_nil_r).
  1-6: split; reflexivity.
  - left. destruct (data_found_world request w d w' Hfound) as (e & He & ->).
    rewrite (calls_since_app w _ [e]) by reflexivity.
    simpl. rewrite He. split; reflexivity.
  - right. destruct (data_found_world request w d w1 Hfound) as (e & He & ->).
    split; [|eexists; reflexivity].
    rewrite (calls_since_app w _
               [e; EvExecuteSync (request_data_of d q)
                     (get_context self request (fresh (dom (store (log_event e w)))))
                     (spec_permitted_kinds (allow_queries_via_get self)
                        (method request))]).
    + simpl. apply orb_true_r.
    + simpl. rewrite <- app_assoc. reflexivity.
  - right. destruct (data_found_world request w d w1 Hfound) as (e & He & ->).
    destruct (engine_success_world _ _ _ _ _ _ _ Hengine)
      as (result & effect & _ & _ & ->).
    split; [|eexists; reflexivity].
    rewrite (calls_since_app w _
               [e; EvExecuteSync (request_data_of d q)
                     (get_context self request (fresh (dom (store (log_event e w)))))
                     (spec_permitted_kinds (allow_queries_via_get self)
                        (method request))]).
    + simpl. apply orb_true_r.
    + simpl. rewrite <- app_assoc. reflexivity.
Qed.

End EngineCall.

(** ** The operation, its kind, and the failures *)

Section Operations.
Context `{Runtime}.
Implicit Types (self : GraphQLView) (request : Request) (w : World).

(** C1: the set of kinds the engine is asked to permit follows from the
    method: all kinds for POST, query only for GET, and no kind for GET
    when queries via GET are not allowed.  When the operation asked for is
    of a kind outside this set the response has status 400 and the body
    [Code] "BadRequestError" and, as [Message], the text that says that
    operations of this kind are not allowed when using the method of the
    request. *)
Theorem permitted_kinds_by_method self request w d w1 (q : json) :
  data_found request w d w1 →
  d !! "query" = Some q →
  let rd := {| query := q;
               variables := dict_get d "variables";
               operation_name := dict_get d "operationName" |} in
  let allowed := spec_permitted_kinds (allow_queries_via_get self) (method request) in
  let context := get_context self request (fresh (dom (store w1))) in
  (∃ response w',
     execute_request self request w = (Ok response, w')
     ∧ calls_since w1 w' = [EvExecuteSync rd context allowed]
     ∧ ∀ k, operation_type_of (_schema self) rd = Some k →
            k ∉ allowed →
            body response
            = BodyJson (JDict {[ "Code" := JStr "BadRequestError";
                                 "Message" := JStr (operation_type_plural k
                                                    +:+ " are not allowed when using "
                                                    +:+ method request) ]})
            ∧ status_code response = 400
            ∧ resp_headers response = None
            ∧ str_in (method request)
                (operation_type_plural k +:+ " are not allowed when using "
                 +:+ method request) = true)
  ∧ (∀ allow, spec_permitted_kinds allow "POST" = {[ QUERY; MUTATION; SUBSCRIPTION ]})
  ∧ spec_permitted_kinds true "GET" = {[ QUERY ]}
  ∧ spec_permitted_kinds false "GET" = ∅.
Proof.
  intros Hfound Hq rd allowed context.
  split; [|repeat split].
  pose proof (data_found_method _ _ _ _ Hfound) as Hm.
  destruct (execute_data_calls_engine self request w d w1 q Hfound Hq)
    as (response & w' & Hrun & Htrace & Hrefused).
  exists response, w'.
  rewrite (execute_request_data_found self request w d w1 Hfound).
  split; [exact Hrun|]. split.
  - apply calls_since_app. exact Htrace.
  - intros k Hkind Hnot. rewrite (Hrefused k Hkind Hnot).
    split; [reflexivity|]. split; [reflexivity|]. split; [reflexivity|].
    destruct Hm as [-> | ->]; destruct k; reflexivity.
Qed.

(** C7, amended: when the request reaches [parse_request_data] with a
    mapping that has no entry for the query, it is answered with status
    400 and the body [Code] "BadRequestError", [Message] "No GraphQL query
    found in the request", and the engine is not called. *)
Theorem missing_query_400 self request w d w1 :
  data_found request w d w1 →
  d !! "query" = None →
  execute_request self request w = (Ok no_query_found, w1)
  ∧ structured_error no_query_found 400
  ∧ body no_query_found
    = BodyJson (JDict {[ "Code" := JStr "BadRequestError";
                         "Message" := JStr "No GraphQL query found in the request" ]})
  ∧ existsb is_engine_call (calls_since w w1) = false.
Proof.
  intros Hfound Hq. split; [|split; [|split]].
  - rewrite (execute_request_data_found self request w d w1 Hfound).
    apply execute_data_no_query. exact Hq.
  - apply error_response_structured.
  - reflexivity.
  - destruct (data_found_world request w d w1 Hfound) as (e & He & ->).
    rewrite (calls_since_app w (log_event e w) [e]) by reflexivity.
    simpl. rewrite He. reflexivity.
Qed.

(** C6: for a GET request without a JSON content type that carries query
    parameters, the parameters are parsed into the mapping a JSON body
    would be: the query is the text of the parameter [query], the variables
    are the JSON decoded from the parameter [variables], the operation name
    is the text of the parameter [operationName].  The engine is called
    with this operation, as it is for a request that carries the mapping as
    its JSON body; without the parameter [query] the answer is the error of
    the missing query, and when the JSON inside the parameter [variables]
    is malformed the answer is a structured error 400. *)
Theorem query_string_parsed self request w (params : gmap string string) :
  method request = "GET" →
  json_content_type request = false →
  query_params request = Some params →
  params ≠ ∅ →
  match parse_query_params params w with
  | (Ok d, w1) =>
      w1 = log_event (EvParseQueryParams params) w
      ∧ data_found request w d w1
      ∧ execute_request self request w = execute_data self request d w1
      ∧ d !! "query" = JStr <$> params !! "query"
      ∧ match params !! "query" with
        | None => execute_request self request w = (Ok no_query_found, w1)
        | Some text =>
            parse_request_data d w1 = (Ok (params_request_data params text), w1)
            ∧ (∃ response w',
                 execute_request self request w = (Ok response, w')
                 ∧ calls_since w w'
                   = [EvParseQueryParams params;
                      EvExecuteSync (params_request_data params text)
                        (get_context self request (fresh (dom (store w))))
                        (spec_permitted_kinds (allow_queries_via_get self) "GET")])
            ∧ (∀ request2 w2,
                 method request2 = "POST" ∨ method request2 = "GET" →
                 json_content_type request2 = true →
                 body_json request2 = Some (JDict d) →
                 ∃ response2 w2',
                   execute_request self request2 w2 = (Ok response2, w2')
                   ∧ calls_since w2 w2'
                     = [EvJsonBody;
                        EvExecuteSync (params_request_data params text)
                          (get_context self request2 (fresh (dom (store w2))))
                          (spec_permitted_kinds (allow_queries_via_get self)
                             (method request2))])
        end
  | (Raise e, w1) =>
      (∃ text, params !! "variables" = Some text ∧ json_loads text = None)
      ∧ execute_request self request w = (Ok body_not_json, w1)
      ∧ structured_error body_not_json 400
  end.
Proof.
  intros Hm Hct Hparams Hne.
  pose proof (execute_request_params self request w params Hm Hct Hparams Hne) as Hrun.
  assert (Hdata : ∀ d,
    parse_query_params params w = (Ok d, log_event (EvParseQueryParams params) w) →
    d !! "query" = JStr <$> params !! "query" →
    dict_get d "variables" = params_variables params →
    dict_get d "operationName" = default JNull (JStr <$> params !! "operationName") →
    execute_request self request w
    = execute_data self request d (log_event (EvParseQueryParams params) w) →
    log_event (EvParseQueryParams params) w = log_event (EvParseQueryParams params) w
    ∧ data_found request w d (log_event (EvParseQueryParams params) w)
    ∧ execute_request self request w
      = execute_data self request d (log_event (EvParseQueryParams params) w)
    ∧ d !! "query" = JStr <$> params !! "query"
    ∧ match params !! "query" with
      | None => execute_request self request w
                = (Ok no_query_found, log_event (EvParseQueryParams params) w)
      | Some text =>
          parse_request_data d (log_event (EvParseQueryParams params) w)
          = (Ok (params_request_data params text),
             log_event (EvParseQueryParams params) w)
          ∧ (∃ response w',
               execute_request self request w = (Ok response, w')
               ∧ calls_since w w'
                 = [EvParseQueryParams params;
                    EvExecuteSync (params_request_data params text)
                      (get_context self request (fresh (dom (store w))))
                      (spec_permitted_kinds (allow_queries_via_get self) "GET")])
          ∧ (∀ request2 w2,
               method request2 = "POST" ∨ method request2 = "GET" →
               json_content_type request2 = true →
               body_json request2 = Some (JDict d) →
               ∃ response2 w2',
                 execute_request self request2 w2 = (Ok response2, w2')
                 ∧ calls_since w2 w2'
                   = [EvJsonBody;
                      EvExecuteSync (params_request_data params text)
                        (get_context self request2 (fresh (dom (store w2))))
                        (spec_permitted_kinds (allow_queries_via_get self)
                           (method request2))])
      end).
  { intros d Hparse Hquery Hvars Hname Hexec.
    assert (Hfound : data_found request w d (log_event (EvParseQueryParams params) w))
      by (apply (found_in_params request w params); assumption).
    split; [reflexivity|]. split; [exact Hfound|]. split; [exact Hexec|].
    split; [exact Hquery|].
    destruct (params !! "query") as [text|] eqn:Htext; simpl in Hquery.
    - assert (Hrd : request_data_of d (JStr text) = params_request_data params text).
      { unfold request_data_of, params_request_data. rewrite Hvars, Hname. reflexivity. }
      split; [|split].
      + unfold parse_request_data. rewrite Hquery. fold (request_data_of d (JStr text)).
        rewrite Hrd. reflexivity.
      + destruct (execute_request_calls_engine self request w d _ (JStr text)
                    Hfound Hquery) as (response & w' & e & Hok & He & Hcalls).
        exists response, w'. split; [exact Hok|].
        rewrite Hcalls, Hrd, Hm.
        assert (e = EvParseQueryParams params) as ->; [|reflexivity].
        apply (f_equal trace) in He. simpl in He.
        apply app_inv_head in He. congruence.
      + intros request2 w2 Hm2 Hct2 Hbody2.
        assert (Hfound2 : data_found request2 w2 d (log_event EvJsonBody w2))
          by (apply found_in_body; assumption).
        destruct (execute_request_calls_engine self request2 w2 d _ (JStr text)
                    Hfound2 Hquery) as (response & w' & e & Hok & He & Hcalls).
        exists response, w'. split; [exact Hok|].
        rewrite Hcalls, Hrd.
        assert (e = EvJsonBody) as ->; [|reflexivity].
        apply (f_equal trace) in He. simpl in He.
        apply app_inv_head in He. congruence.
    - rewrite Hexec. apply execute_data_no_query. exact Hquery. }
  rewrite parse_query_params_cases in *.
  unfold params_variables in Hdata.
  destruct (params !! "variables") as [text|] eqn:Hvars;
    [destruct (json_loads text) as [v|] eqn:Hloads|].
  - apply Hdata; try reflexivity; try assumption.
    + rewrite lookup_insert_ne by discriminate. apply lookup_fmap.
    + unfold dict_get. rewrite lookup_insert_eq. simpl. rewrite Hloads. reflexivity.
    + unfold dict_get. rewrite lookup_insert_ne by discriminate.
      rewrite lookup_fmap. reflexivity.
  - repeat split; try assumption.
    + exists text. split; [reflexivity | assumption].
    + apply error_response_structured.
  - apply Hdata; try reflexivity; try assumption.
    + apply lookup_fmap.
    + unfold dict_get. rewrite lookup_fmap, Hvars. reflexivity.
    + unfold dict_get. rewrite lookup_fmap. reflexivity.
Qed.

(** C2, amended: a response of [execute_request] is the GraphiQL page, or
    the outcome of an execution of the engine with the status found on the
    placeholder, whatever that status is, or else a structured error: a
    body with the two fields [Code] and [Message] and nothing else, both
    strings, and status 400, 404 or 405.  Each failure the view recognises
    (method, JSON, missing query, kind of operation) is answered with such
    an error.  Only the exceptions the handlers name are caught: an
    exception of another type raised by the engine leaves
    [execute_request]. *)
Theorem failures_are_structured_errors self request w :
  (∀ response w',
     execute_request self request w = (Ok response, w') →
     response = explorer_response
     ∨ (∃ rd context result effect,
          resolve (_schema self) rd context None = (result, effect)
          ∧ body response = BodyJson (process_result result)
          ∧ status_code response = tr_status_code (effect TemporalResponse_default)
          ∧ existsb is_engine_call (calls_since w w') = true)
     ∨ ∃ code, (code = 400 ∨ code = 404 ∨ code = 405)
               ∧ structured_error response code)
  ∧ (failure self request w →
     ∃ response w' code,
       execute_request self request w = (Ok response, w')
       ∧ (code = 400 ∨ code = 404 ∨ code = 405)
       ∧ structured_error response code)
  ∧ (∀ (e : exn) d w1 (q : json),
       data_found request w d w1 →
       d !! "query" = Some q →
       is_InvalidOperationTypeError e = false →
       ∃ w', execute_request_with (raising_engine e) self request w = (Raise e, w')).
Proof.
  split; [|split].
  - intros response w' Hrun.
    apply (outcome_kinds self request w response w').
    apply execute_request_returned. exact Hrun.
  - intros [Hget Hpost
           | Hct Hbody
           | params text Hm Hct Hparams Hvars Hloads
           | d w1 Hfound Hq
           | d w1 rd k Hfound Hparse Hkind Hnot].
    + exists method_not_allowed, w, 405.
      split; [apply execute_request_bad_method; assumption|].
      split; [tauto | apply error_response_structured].
    + destruct (decide (method request = "GET")) as [Hget | Hget];
        [|destruct (decide (method request = "POST")) as [Hpost | Hpost]].
      3: { exists method_not_allowed, w, 405.
           split; [apply execute_request_bad_method; assumption|].
           split; [tauto | apply error_response_structured]. }
      all: exists body_not_json, (log_event EvJsonBody w), 400.
      all: split; [apply execute_request_body_not_json; tauto|].
      all: split; [tauto | apply error_response_structured].
    + assert (Hne : params ≠ ∅).
      { intros ->. rewrite lookup_empty in Hvars. discriminate. }
      exists body_not_json, (log_event (EvParseQueryParams params) w), 400.
      split; [|split; [tauto | apply error_response_structured]].
      rewrite (execute_request_params self request w params) by assumption.
      rewrite parse_query_params_cases, Hvars, Hloads. reflexivity.
    + exists no_query_found, w1, 400.
      split; [|split; [tauto | apply error_response_structured]].
      rewrite (execute_request_data_found self request w d w1 Hfound).
      apply execute_data_no_query. exact Hq.
    + pose proof (data_found_method _ _ _ _ Hfound) as Hm.
      unfold parse_request_data in Hparse.
      destruct (d !! "query") as [q|] eqn:Hq; [|discriminate].
      injection Hparse as <-.
      eexists (operation_not_allowed k (method request)), _, 400.
      split; [|split; [tauto | apply error_response_structured]].
      rewrite (execute_request_data_found self request w d w1 Hfound).
      rewrite (execute_data_query self request w1 d q Hq Hm). cbv zeta.
      rewrite Hkind.
      rewrite bool_decide_eq_false_2 by assumption. reflexivity.
  - intros e d w1 q Hfound Hq He. eexists.
    apply (engine_exception_leaves e self request w d w1 q); assumption.
Qed.

(** X4: a request leaves the placeholders of earlier requests as they are.
    When the engine is not called the store is unchanged; when it is
    called the store has grown by one placeholder, at a location that was
    free. *)
Theorem earlier_placeholders_kept self request w :
  ∃ response w',
    execute_request self request w = (Ok response, w')
    ∧ (∀ l placeholder, store w !! l = Some placeholder →
                        store w' !! l = Some placeholder)
    ∧ (existsb is_engine_call (calls_since w w') = false → store w' = store w)
    ∧ (existsb is_engine_call (calls_since w w') = true →
       ∃ l placeholder,
         store w !! l = None ∧ store w' = <[l := placeholder]> (store w)).
Proof.
  destruct (execute_request_outcome self request w) as (response & w' & Hrun & Hout).
  exists response, w'. split; [exact Hrun|].
  assert (Hfree : store w !! fresh (dom (store w)) = None).
  { apply not_elem_of_dom. apply is_fresh. }
  destruct (outcome_store_calls _ _ _ _ _ Hout)
    as [[Hquiet Hsame] | [Hcalled [placeholder Hgrown]]].
  - rewrite Hquiet, Hsame. split; [tauto|]. split; [reflexivity | discriminate].
  - rewrite Hcalled, Hgrown. split; [|split; [discriminate|]].
    + intros l tr Hl. rewrite lookup_insert_ne; [exact Hl|].
      intros <-. rewrite Hfree in Hl. discriminate Hl.
    + intros _. exists (fresh (dom (store w))), placeholder.
      split; [exact Hfree | reflexivity].
Qed.

End Operations.

(** ** These claims on requests *)

Section OnFaults.
#[local] Existing Instance Demo.runtime.

(** Settles a fact about a closed term by evaluation. *)
Ltac computed :=
  lazymatch goal with
  | |- _ ≠ _ => let E := fresh "E" in intros E; vm_compute in E; discriminate E
  | |- _ => vm_compute; reflexivity
  end.

Lemma permitted_kinds_by_method_witness :
  ∃ response w',
    execute_request Demo.view Demo.get_mutation empty_world = (Ok response, w')
    ∧ body response
      = BodyJson (JDict {[ "Code" := JStr "BadRequestError";
                           "Message" := JStr "mutations are not allowed when using GET" ]})
    ∧ status_code response = 400.
Proof.
  destruct (permitted_kinds_by_method Demo.view Demo.get_mutation empty_world
              {[ "query" := JStr "mutation { hello }" ]}
              (log_event (EvParseQueryParams {[ "query" := "mutation { hello }" ]})
                 empty_world)
              (JStr "mutation { hello }"))
    as ((response & w' & Hrun & _ & Hrefused) & _).
  - apply (found_in_params Demo.get_mutation empty_world
             {[ "query" := "mutation { hello }" ]}); computed.
  - computed.
  - exists response, w'. split; [exact Hrun|].
    destruct (Hrefused MUTATION) as (Hbody & Hstatus & _).
    + reflexivity.
    + intros Hin. apply (bool_decide_pack _) in Hin. vm_compute in Hin. exact Hin.
    + split; [exact Hbody | exact Hstatus].
Defined.

Lemma missing_query_400_witness :
  execute_request Demo.view Demo.get_no_query empty_world
  = (Ok no_query_found,
     log_event (EvParseQueryParams {[ "variables" := "{}" ]}) empty_world).
Proof.
  apply (missing_query_400 Demo.view Demo.get_no_query empty_world
           {[ "variables" := JDict ∅ ]}).
  - apply (found_in_params Demo.get_no_query empty_world {[ "variables" := "{}" ]});
      computed.
  - computed.
Defined.

(** C7 as it is written fails: a body whose query is null holds no query
    text, and is handed to the engine. *)
Lemma no_query_text_rejected_fails : ¬ no_query_text_rejected.
Proof.
  intros Hclaim.
  destruct (Hclaim Demo.view Faults.post_null_query empty_world
              {[ "query" := JNull ]} (log_event EvJsonBody empty_world))
    as (response & w' & Hrun & _ & Hquiet).
  - apply found_in_body; [left|..]; computed.
  - computed.
  - destruct (execute_request_calls_engine Demo.view Faults.post_null_query empty_world
                {[ "query" := JNull ]} (log_event EvJsonBody empty_world) JNull)
      as (r & w2 & e & Hrun' & _ & Hcalls).
    + apply found_in_body; [left|..]; computed.
    + computed.
    + rewrite Hrun in Hrun'. injection Hrun' as _ <-.
      rewrite Hcalls in Hquiet. simpl in Hquiet.
      rewrite orb_true_r in Hquiet. discriminate Hquiet.
Qed.

Lemma failures_are_structured_errors_witness :
  ∃ response w' code,
    execute_request Demo.strict_view Demo.get_query empty_world = (Ok response, w')
    ∧ (code = 400 ∨ code = 404 ∨ code = 405)
    ∧ structured_error response code.
Proof.
  apply (failures_are_structured_errors Demo.strict_view Demo.get_query empty_world).
  apply (disallowed_operation Demo.strict_view Demo.get_query empty_world
           {[ "query" := JStr "{ hello }" ]}
           (log_event (EvParseQueryParams {[ "query" := "{ hello }" ]}) empty_world)
           {| query := JStr "{ hello }"; variables := JNull; operation_name := JNull |}
           QUERY).
  - apply (found_in_params Demo.get_query empty_world {[ "query" := "{ hello }" ]});
      computed.
  - computed.
  - reflexivity.
  - intros Hin. apply (bool_decide_pack _) in Hin. vm_compute in Hin. exact Hin.
Defined.

(** The first sentence of C2 as it is written fails: the resolvers of
    [Faults.forbidding_view] set 403 on the placeholder, and the response
    has this status and the outcome as its body. *)
Lemma non_success_is_structured_error_fails : ¬ non_success_is_structured_error.
Proof.
  intros Hclaim.
  assert (Hrun : ∃ w',
    execute_request Faults.forbidding_view Demo.post_query empty_world
    = (Ok (Response_new
             (BodyJson (JDict {[ "data" := JNull ]})) 403 None), w')).
  { eexists. vm_compute. reflexivity. }
  destruct Hrun as [w' Hrun].
  destruct (Hclaim _ _ _ _ _ Hrun) as (code & Hcode & message & error_code & _ & Hstatus).
  - unfold success_status. simpl. lia.
  - simpl in Hstatus. lia.
Qed.

(** An engine that raises [ValueError]: the exception leaves
    [execute_request]. *)
Example engine_fault_leaves :
  ∃ w', execute_request_with (raising_engine (ValueError "boom"))
          Demo.view Demo.post_query empty_world
        = (Raise (ValueError "boom"), w').
Proof. eexists. vm_compute. reflexivity. Qed.

Lemma query_string_parsed_witness :
  ∃ response w',
    execute_request Demo.view Faults.get_full_query empty_world = (Ok response, w')
    ∧ calls_since empty_world w'
      = [EvParseQueryParams {[ "query" := "query Q { hello }";
                               "variables" := "{}";
                               "operationName" := "Q" ]};
         EvExecuteSync {| query := JStr "query Q { hello }";
                          variables := JDict ∅;
                          operation_name := JStr "Q" |}
           (get_context Demo.view Faults.get_full_query 0%nat)
           {[ QUERY ]}].
Proof.
  assert (Hne : ({[ "query" := "query Q { hello }"; "variables" := "{}";
                    "operationName" := "Q" ]} : gmap string string) ≠ ∅) by computed.
  pose proof (query_string_parsed Demo.view Faults.get_full_query empty_world
                {[ "query" := "query Q { hello }"; "variables" := "{}";
                   "operationName" := "Q" ]}
                eq_refl eq_refl eq_refl Hne) as Hparsed.
  rewrite parse_query_params_cases in Hparsed.
  destruct Hparsed as (_ & _ & _ & _ & _ & Hcall & _).
  exact Hcall.
Defined.

End OnFaults.
